(** * The switching-point test loop of the filling-machine controller

    A shallow embedding of [config.py], [real_world_tester.py],
    [file_handler.py] and the receive loops of [tcp_client.py], the
    properties of the control loop that the design document states about
    them, and further properties that the code itself shows.

    Conventions of the embedding.
    - Python [int] is [Z]; the decimal literals of [config.py] are kept
      twice where their exact value matters: as binary64 floats (what the
      interpreter computes with) and as rationals (what the text says).
    - [session_stats], a [dict] keyed by strings, is a [gmap string Z].
    - Methods that mutate [self.session_stats] or may raise run in the
      monad [Py.M]: explicit state passing with an exception result.
    - [while True] is a fixpoint on a pass budget; running out of budget is
      the separate result [Py.Hang], never confused with a return.
    - A socket is the list of what its [recv] calls answer, each with the
      reading of [time.time()] taken in that turn, a binary64 float as in
      the interpreter; what [recv] returns is a byte string.
    - [RealDataProcessor], [RewardCalculator], [DatabaseHandler] and
      [ModbusClient] are imported by [real_world_tester.py] but their
      modules are not among the sources: the tester reaches them through
      the fields of [Tester], and the rules of the design document that
      live in them are written down in [Module Design].
    - Line numbers refer to [real_world_tester.py] unless a file is named.
      Line 112 nests double quotes inside an f-string, which the
      interpreter accepts from version 3.12 on; the embedding is of the
      module as such an interpreter loads it. *)

From Stdlib Require Import ZArith QArith Qabs List Lia Floats.
From stdpp Require Import base gmap strings list pretty.

#[local] Set Warnings "-inexact-float".
#[local] Open Scope Z_scope.

(* ================================================================== *)
(** ** config.py *)
(* ================================================================== *)

Module Config.

(** Safe weight range (for reward calculation). *)
Definition DEFAULT_SAFE_WEIGHT_MIN : Z := 74.
Definition DEFAULT_SAFE_WEIGHT_MAX : Z := 76.

(** Penalty constants; [-370.0] and [-100.0] are exact in binary64. *)
Definition DEFAULT_OVERFLOW_PENALTY_CONSTANT : Q := (-370 # 1)%Q.
Definition DEFAULT_UNDERFLOW_PENALTY_CONSTANT : Q := (-100 # 1)%Q.

(** Exploration step parameters. *)
Definition EXPLORATION_STEPS : list Z := [1; 2; 3; 4; 5].
Definition EXPLORATION_PROBABILITIES : list float :=
  [0.33; 0.27; 0.2; 0.13; 0.07]%float.

(** The same five literals read as decimal fractions. *)
Definition EXPLORATION_PROBABILITIES_decimal : list Q :=
  [(33 # 100); (27 # 100); (2 # 10); (13 # 100); (7 # 100)]%Q.

(** Real-world device parameters. *)
Definition DEFAULT_WEIGHT_QUANTIZATION_STEP : Z := 10000.

End Config.

(* ================================================================== *)
(** ** The fragment of Python the tester relies on *)
(* ================================================================== *)

Module Py.

(** The exception classes that occur.  [KeyboardInterrupt] derives from
    [BaseException] only, the others from [Exception]. *)
Inductive exn : Set :=
| TypeError
| KeyError
| ValueError
| IndexError
| KeyboardInterrupt.

Definition is_Exception (e : exn) : bool :=
  match e with
  | KeyboardInterrupt => false
  | _ => true
  end.

(** What running a piece of code ends in. *)
Inductive res (A : Type) : Type :=
| Ok (a : A)
| Raise (e : exn)
| Hang.
Arguments Ok {A} a.
Arguments Raise {A} e.
Arguments Hang {A}.

(** Code over a mutable store [S]. *)
Definition M (S A : Type) : Type := S -> res A * S.

Definition ret {S A} (a : A) : M S A := fun s => (Ok a, s).

Definition bind {S A B} (m : M S A) (k : A -> M S B) : M S B :=
  fun s =>
    match m s with
    | (Ok a, s') => k a s'
    | (Raise e, s') => (Raise e, s')
    | (Hang, s') => (Hang, s')
    end.

Definition raise {S A} (e : exn) : M S A := fun s => (Raise e, s).
Definition hang {S A} : M S A := fun s => (Hang, s).
Definition modify {S} (f : S -> S) : M S unit := fun s => (Ok tt, f s).

(** [try: body  except Exception: handler]; anything that is not an
    [Exception] goes through. *)
Definition try_except_Exception {S A} (body : M S A) (handler : exn -> M S A)
  : M S A :=
  fun s =>
    match body s with
    | (Raise e, s') =>
        if is_Exception e then handler e s' else (Raise e, s')
    | r => r
    end.

(** [try: body  except KeyboardInterrupt: h1  except Exception: h2]. *)
Definition try_except_KeyboardInterrupt_Exception {S A}
    (body : M S A) (h1 : M S A) (h2 : exn -> M S A) : M S A :=
  fun s =>
    match body s with
    | (Raise KeyboardInterrupt, s') => h1 s'
    | (Raise e, s') =>
        if is_Exception e then h2 e s' else (Raise e, s')
    | r => r
    end.

(** [try: body  finally: cleanup]. *)
Definition try_finally {S A} (body : M S A) (cleanup : M S unit) : M S A :=
  fun s =>
    match body s with
    | (r, s') =>
        match cleanup s' with
        | (Ok _, s'') => (r, s'')
        | (Raise e, s'') => (Raise e, s'')
        | (Hang, s'') => (Hang, s'')
        end
    end.

(** Calling a bound method whose [def] lists [params] names after [self]
    with [args] positional arguments: the interpreter checks the count
    before the body runs. *)
Definition call_method {S A V} (params : nat) (args : list V) (body : M S A)
  : M S A :=
  if Nat.eqb (length args) params then body else raise TypeError.

(** Truth value of an [Optional[str]]. *)
Definition truthy (o : option string) : bool :=
  match o with
  | None => false
  | Some EmptyString => false
  | Some (String _ _) => true
  end.

(** [d[k] += 1] on a dictionary of integers. *)
Definition incr_item (k : string) : M (gmap string Z) unit :=
  fun d =>
    match d !! k with
    | Some v => (Ok tt, <[k := v + 1]> d)
    | None => (Raise KeyError, d)
    end.

(** [l.index(x)]: position of the first occurrence; [None] stands for
    the [ValueError] of a list without [x]. *)
Fixpoint index (x : Z) (l : list Z) : option nat :=
  match l with
  | [] => None
  | y :: l' => if Z.eqb y x then Some 0%nat else option_map S (index x l')
  end.

(** [l[i]] for an integer [i]: a negative [i] counts from the end;
    [None] stands for the [IndexError] of a position outside the list. *)
Definition getitem (l : list Z) (i : Z) : option Z :=
  if Z.ltb i 0 then
    (if Z.ltb (i + Z.of_nat (length l)) 0 then None
     else l !! Z.to_nat (i + Z.of_nat (length l)))
  else l !! Z.to_nat i.

End Py.

Notation "'let*' x ':=' m 'in' k" := (Py.bind m (fun x => k))
  (at level 10, x name, m at level 100, k at level 200).
Notation "m ';;' k" := (Py.bind m (fun _ => k))
  (at level 100, k at level 200, right associativity).

(* ================================================================== *)
(** ** real_world_tester.py *)
(* ================================================================== *)

Module FillingSession.
(** The two attributes of a filling session that the tester reads. *)
Record t : Type := { episode_length : Z; final_weight : Z }.
End FillingSession.

Module RealWorldTester.
Import Py.

(** The dictionary that [parse_raw_data] returns, by the keys that the
    tester reads, and the two keys that [run_episode] adds to it. *)
Record EpisodeData : Type := {
  raw_data : string;
  weight_sequence : list Z;
  coarse_time : Z;
  fine_time : Z;
  total_time : Z;
  switching_point : Z;
  overflow_amount : Z;
  underflow_amount : Z;
  final_weight : Z;
  reward : option Q;
  filling_session : option FillingSession.t
}.

Definition with_reward (d : EpisodeData) (r : Q) (fs : FillingSession.t)
  : EpisodeData :=
  {| raw_data := raw_data d;
     weight_sequence := weight_sequence d;
     coarse_time := coarse_time d;
     fine_time := fine_time d;
     total_time := total_time d;
     switching_point := switching_point d;
     overflow_amount := overflow_amount d;
     underflow_amount := underflow_amount d;
     final_weight := final_weight d;
     reward := Some r;
     filling_session := Some fs |}.

(** [self] without [session_stats]: the collaborators the tester holds,
    each by what its calls answer. *)
Record Tester : Type := {
  (** [udp_client.receive_data()]: the answer to the k-th call, that is,
      what the device sent; [None] is a timeout. *)
  udp_client : nat -> option string;
  (** The answers of [udp_client.connect()] and [modbus_client.connect()]. *)
  udp_connect : bool;
  modbus_connect : bool;
  (** [data_processor]. *)
  parse_raw_data : string -> option EpisodeData;
  create_filling_session : EpisodeData -> option FillingSession.t;
  quantization_step : Z;
  (** [reward_calculator]. *)
  calculate_reward : Z -> Z -> string -> Q;
  safe_weight_min : Z;
  safe_weight_max : Z;
  (** [db_handler]: the exception, if any, that the calls in the body of
      [_save_episode_to_database] end in. *)
  db_save : EpisodeData -> option exn
}.

(** [__init__], lines 55-58: the tolerance limits handed to the data
    processor. *)
Definition real_tolerance_limits (quantization_step : Z) : list Z :=
  [Config.DEFAULT_SAFE_WEIGHT_MIN * quantization_step;
   Config.DEFAULT_SAFE_WEIGHT_MAX * quantization_step].

(** Modelled from the spec: the tester under the default configuration,
    as far as the weights go.  [quantization_step] defaults to
    [DEFAULT_WEIGHT_QUANTIZATION_STEP] (line 33); the band that
    [reward_calculator] carries is set in [reward_calculator.py], which is
    not among the sources, and is taken to be the default safe band
    [74, 76] of the configuration. *)
Definition with_default_config (self : Tester) : Tester :=
  {| udp_client := udp_client self;
     udp_connect := udp_connect self;
     modbus_connect := modbus_connect self;
     parse_raw_data := parse_raw_data self;
     create_filling_session := create_filling_session self;
     quantization_step := Config.DEFAULT_WEIGHT_QUANTIZATION_STEP;
     calculate_reward := calculate_reward self;
     safe_weight_min := Config.DEFAULT_SAFE_WEIGHT_MIN;
     safe_weight_max := Config.DEFAULT_SAFE_WEIGHT_MAX;
     db_save := db_save self |}.

(** The same tester listening to another device. *)
Definition with_udp_client (device : nat -> option string) (self : Tester)
  : Tester :=
  {| udp_client := device;
     udp_connect := udp_connect self;
     modbus_connect := modbus_connect self;
     parse_raw_data := parse_raw_data self;
     create_filling_session := create_filling_session self;
     quantization_step := quantization_step self;
     calculate_reward := calculate_reward self;
     safe_weight_min := safe_weight_min self;
     safe_weight_max := safe_weight_max self;
     db_save := db_save self |}.

(** [__init__], lines 71-78. *)
Definition session_stats_init : gmap string Z :=
  <["total_episodes" := 0]>
  (<["successful_episodes" := 0]>
  (<["failed_episodes" := 0]>
  (<["safe_episodes" := 0]>
  (<["overflow_episodes" := 0]>
  (<["underflow_episodes" := 0]> ∅))))).

(** Line 123: the literal bound to [raw_data]. *)
Definition RAW_DATA : string :=
  "1,    1;-   598,80955;-   611,    1;-   640,    2;-   667,    2;-   667,    0;-   644,    2;-   629,    1;-   598,    3;-   578,    2;-   581,    0;-   581,    0;-   581,    0;-   581,    0;-   581,    0;-   581,    0;-   581,    0;-   594,    1;-   594,    0;-   607,    1;-   612,    0;-   619,    0;-   645,    2;-   671,    2;-   676,    0;-   673,    0;-   673,    0;-   679,    0;-   701,    2;-   717,    1;-   726,    0;-   862,   13;-   929,    6;-  1009,    8;-  1024,    1;-  1060,    3;-  1085,    2;-  1204,   11;-  1204,    0;-  1204,    0;-  1204,    0;-  1204,    0;-  1204,    0;-  1172,    3;-  1058,   11;-   554,   50;   259,   81;  1670,  141;  3262,  159;  5176,  191;  7209,  203;  9579,  237; 12350,  277; 15614,  326; 19307,  369; 23252,  394; 27419,  416; 31600,  418; 35996,  439; 40501,  450; 45333,  483; 50211,  487; 55019,  480; 59487,  446; 63623,  413; 67573,  395; 71467,  389; 75494,  402; 79404,  391; 83198,  379; 86602,  340; 89816,  321; 92988,  317; 96442,  345;100245,  380;104166,  392;107921,  375;111252,  333;114418,  316;117665,  324;121343,  367;125348,  400;129424,  407;133151,  372;136508,  335;139727,  321;143143,  341;147048,  390;151116,  406;155045,  392;158450,  340;161470,  302;164519,  304;168019,  350;172052,  403;176263,  421;180271,  400;183713,  344;186858,  314;190141,  328;193823,  368;197901,  407;201948,  404;205560,  361;208780,  322;212001,  322;215717,  371;219993,  427;224475,  448;228629,  415;232190,  356;235418,  322;238739,  332;242564,  382;246714,  415;250869,  415;254796,  392;258477,  368;262264,  378;266308,  404;270555,  424;274658,  410;278441,  378;281989,  354;285583,  359;289494,  391;293559,  406;297577,  401;301309,  373;304931,  362;308729,  379;312813,  408;317088,  427;321111,  402;324738,  362;328026,  328;331496,  347;335477,  398;339889,  441;344478,  458;348586,  410;352182,  359;355576,  339;359150,  357;363188,  403;367373,  418;371372,  399;374939,  356;378310,  337;381948,  363;386018,  407;390483,  446;394801,  431;398700,  389;402177,  347;405466,  328;409104,  363;413187,  408;417642,  445;422136,  449;426467,  433;430637,  417;434649,  401;438719,  407;442716,  399;446626,  391;450497,  387;454306,  380;458265,  395;462209,  394;    30,   30;462209,44376;466032,  382;469669,  363;473096,  342;476636,  354;480433,  379;484633,  420;489029,  439;493320,  429;497399,  407;501208,  380;505123,  391;509247,  412;513553,  430;517888,  433;521779,  389;525360,  358;528932,  357;532891,  395;537573,  468;542530,  495;547380,  485;551458,  407;554744,  328;557825,  308;561078,  325;565282,  420;570170,  488;575336,  516;580292,  495;584499,  420;588413,  391;592134,  372;596025,  389;600219,  419;604280,  406;608330,  405;611921,  359;615125,  320;617890,  276;620028,  213;622080,  205;623711,  163;625154,  144;626290,  113;626868,   57;627336,   46;627534,   19;627534,    0;627534,    0;627534,    0;627534,    0;627534,    0;626783,   75;626691,    9;626691,    0;626691,    0;626691,    0;626691,    0;626806,   11;626807,    0;626830,    2;626989,   15;627572,   58;628466,   89;629388,   92;630247,   85;630785,   53;631162,   37;631509,   34;631941,   43;632676,   73;633568,   89;634574,  100;635511,   93;636218,   70;636775,   55;637161,   38;637599,   43;638198,   59;638945,   74;639794,   84;640472,   67;640909,   43;641107,   19;641278,   17;641710,   43;642426,   71;643362,   93;644155,   79;644568,   41;644610,    4;644649,    3;644750,   10;645345,   59;646276,   93;647307,  103;648082,   77;648551,   46;648829,   27;649192,   36;649881,   68;650841,   96;651925,  108;652875,   95;653563,   68;654081,   51;654528,   44;655112,   58;655940,   82;656895,   95;657840,   94;658582,   74;659009,   42;659244,   23;659503,   25;660016,   51;660822,   80;661755,   93;662596,   84;663109,   51;663358,   24;663574,   21;664008,   43;664836,   82;665880,  104;666888,  100;667609,   72;667939,   33;668120,   18;668419,   29;669025,   60;669912,   88;670864,   95;671671,   80;672220,   54;672639,   41;673083,   44;673665,   58;674390,   72;675097,   70;675641,   54;675965,   32;676164,   19;676422,   25;676921,   49;677637,   71;678405,   76;679102,   69;679555,   45;679837,   28;680105,   26;680445,   34;680983,   53;681662,   67;682366,   70;682983,   61;683439,   45;683810,   37;684190,   38;684721,   53;685424,   70;686216,   79;686992,   77;687583,   59;688028,   44;688409,   38;688816,   40;689404,   58;690056,   65;690653,   59;691125,   47;691382,   25;691574,   19;691836,   26;692250,   41;692859,   60;693518,   65;694119,   60;694603,   48;694954,   35;695250,   29;695564,   31;695955,   39;696422,   46;696966,   54;697558,   59;698112,   55;698644,   53;699141,   49;699608,   46;700113,   50;700613,   50;701119,   50;701641,   52;702149,   50;702726,   57;703382,   65;704085,   70;704813,   72;705463,   65;706010,   54;706495,   48;706998,   50;707636,   63;708386,   75;709171,   78;709807,   63;710178,   37;710352,   17;710465,   11;710765,   30;711340,   57;712097,   75;712908,   81;713550,   64;714008,   45;714400,   39;714851,   45;715500,   64;716272,   77;717020,   74;717639,   61;718102,   46;718552,   45;719095,   54;719772,   67;720513,   74;721174,   66;721698,   52;722093,   39;722475,   38;722956,   48;723541,   58;724183,   64;724752,   56;725207,   45;725649,   44;726138,   48;726749,   61;727478,   72;728151,   67;728696,   54;729087,   39;729342,   25;729649,   30;730100,   45;730728,   62;731490,   76;732198,   70;732768,   57;733154,   38;733401,   24;   300,  300;778273, 750000;  25,  603;".

(** [connect_devices]: both [connect()] calls are made, then combined. *)
Definition connect_devices (self : Tester) : bool :=
  let udp_connected := udp_connect self in
  let modbus_connected := modbus_connect self in
  udp_connected && modbus_connected.

(** [_update_session_stats], lines 169-179. *)
Definition _update_session_stats (episode_data : EpisodeData)
  : M (gmap string Z) unit :=
  incr_item "total_episodes" ;;
  incr_item "successful_episodes" ;;
  if 0 <? overflow_amount episode_data then
    incr_item "overflow_episodes"
  else if 0 <? underflow_amount episode_data then
    incr_item "underflow_episodes"
  else
    incr_item "safe_episodes".

(** [_save_episode_to_database], lines 181-216: the database calls sit
    in [try: ... except Exception], and none of them sees
    [session_stats]. *)
Definition _save_episode_to_database (self : Tester)
    (episode_data : EpisodeData) : M (gmap string Z) unit :=
  try_except_Exception
    (match db_save self episode_data with
     | Some e => raise e
     | None => ret tt
     end)
    (fun _ => ret tt).

(** [run_episode], lines 121-129: the loop that waits for the
    transcript.  [rhs k] is the value that the assignment at the head of
    the body binds to [raw_data] in pass [k]; [fuel] bounds the passes. *)
Fixpoint await_raw_data (rhs : nat -> option string) (k fuel : nat)
  : M (gmap string Z) (option string) :=
  match fuel with
  | O => hang
  | S fuel' =>
      let raw_data := rhs k in
      if negb (truthy raw_data) then
        (* the increment of 'failed_episodes' is commented out; continue *)
        await_raw_data rhs (S k) fuel'
      else if truthy raw_data then
        ret raw_data                                   (* break *)
      else
        await_raw_data rhs (S k) fuel'
  end.

(** [run_episode], lines 131-167: what follows the loop. *)
Definition process_raw_data (self : Tester) (raw_data : option string)
  : M (gmap string Z) (option EpisodeData) :=
  match raw_data with
  | None => raise TypeError                            (* raw_data[:100] *)
  | Some raw =>
      match parse_raw_data self raw with
      | None =>
          incr_item "failed_episodes" ;;
          ret None
      | Some parsed_data =>
          match create_filling_session self parsed_data with
          | None =>
              incr_item "failed_episodes" ;;
              ret None
          | Some fs =>
              let r := calculate_reward self
                         (FillingSession.episode_length fs)
                         (FillingSession.final_weight fs)
                         "standard" in
              let parsed_data := with_reward parsed_data r fs in
              _update_session_stats parsed_data ;;
              _save_episode_to_database self parsed_data ;;
              ret (Some parsed_data)
          end
      end
  end.

(** [run_episode] with the right-hand side of the assignment to
    [raw_data] left open. *)
Definition run_episode_with (rhs : nat -> option string) (self : Tester)
    (fuel : nat) : M (gmap string Z) (option EpisodeData) :=
  let* raw_data := await_raw_data rhs 0 fuel in
  process_raw_data self raw_data.

(** [run_episode] as it stands: line 123 binds the literal. *)
Definition run_episode (self : Tester) (fuel : nat)
  : M (gmap string Z) (option EpisodeData) :=
  run_episode_with (fun _ => Some RAW_DATA) self fuel.

(** [run_episode] with line 122, which is commented out, in the place of
    line 123: [raw_data = self.udp_client.receive_data()]. *)
Definition run_episode_line_122 (self : Tester) (fuel : nat)
  : M (gmap string Z) (option EpisodeData) :=
  run_episode_with (udp_client self) self fuel.

(** A session: [run_episode] called once per element of [selves], the
    collaborators as they answer during that call. *)
Fixpoint run_episodes (selves : list Tester) (fuel : nat)
  : M (gmap string Z) (list (option EpisodeData)) :=
  match selves with
  | [] => ret []
  | self :: rest =>
      let* r := run_episode self fuel in
      let* rs := run_episodes rest fuel in
      ret (r :: rs)
  end.

(** [stats[k]] where the value is read. *)
Definition read_counter (k : string) : M (gmap string Z) Z :=
  fun stats =>
    match stats !! k with
    | Some v => (Ok v, stats)
    | None => (Raise KeyError, stats)
    end.

(** [_print_session_summary], lines 358-375: the six counters are read
    for the log (lines 364-369), then 'successful_episodes' is tested
    (line 371) and, when it is positive, 'safe_episodes' is divided by it
    (line 372).  The result is that division by its two operands, when it
    is made; the quotient itself, a binary64 number that is only logged,
    is not computed here.  The counters are taken to be of a size that
    the interpreter puts into text and divides without complaint, as the
    counters of any session are (an integer of more than 4300 digits, or
    a quotient beyond the range of binary64, would raise). *)
Definition _print_session_summary (stats : gmap string Z)
  : res (option (Z * Z)) :=
  fst ((read_counter "total_episodes" ;;
        read_counter "successful_episodes" ;;
        read_counter "failed_episodes" ;;
        read_counter "safe_episodes" ;;
        read_counter "overflow_episodes" ;;
        read_counter "underflow_episodes" ;;
        let* successful := read_counter "successful_episodes" in
        if 0 <? successful then
          let* safe_episodes := read_counter "safe_episodes" in
          let* successful_episodes := read_counter "successful_episodes" in
          ret (Some (safe_episodes, successful_episodes))
        else
          ret None) stats).

(** Code on [session_stats] run where a local variable is in scope too. *)
Definition on_stats {A L} (m : M (gmap string Z) A)
  : M (gmap string Z * L) A :=
  fun '(stats, loc) =>
    match m stats with
    | (r, stats') => (r, (stats', loc))
    end.

(** [run_manual_testing], lines 335-346: the [for] loop.  The local list
    [episodes] is the second component of the store.  [run_episode] is
    declared with [self] alone and is called with one argument. *)
Fixpoint manual_loop (self : Tester) (fuel : nat) (switching_points : list Q)
  : M (gmap string Z * list EpisodeData) unit :=
  match switching_points with
  | [] => ret tt
  | switching_point :: rest =>
      let* episode_data :=
        on_stats (call_method 0 [switching_point] (run_episode self fuel)) in
      match episode_data with
      | Some d => modify (fun '(stats, episodes) => (stats, episodes ++ [d]))
      | None => ret tt                                 (* logging.warning *)
      end ;;
      manual_loop self fuel rest                       (* time.sleep(1.0) *)
  end.

(** [run_manual_testing], lines 328-356.  Both handlers only log;
    [disconnect_devices] (three [close()] calls) returns; after the
    [try], line 355 calls [_print_session_summary], which reads the
    counters. *)
Definition run_manual_testing (self : Tester) (fuel : nat)
    (switching_points : list Q) : M (gmap string Z) (list EpisodeData) :=
  if negb (connect_devices self) then ret []
  else
    fun stats =>
      match
        try_finally
          (try_except_KeyboardInterrupt_Exception
             (manual_loop self fuel switching_points)
             (ret tt)
             (fun _ => ret tt))
          (ret tt)
          (stats, [])
      with
      | (Ok _, (stats', episodes)) =>
          match _print_session_summary stats' with
          | Ok _ => (Ok episodes, stats')
          | Raise e => (Raise e, stats')
          | Hang => (Hang, stats')
          end
      | (Raise e, (stats', _)) => (Raise e, stats')
      | (Hang, (stats', _)) => (Hang, stats')
      end.

(** [run_agent_testing], line 244:
    [weight_sequence[weight_sequence.index(-1) - 1]]. *)
Definition current_switch_point (episode_data : EpisodeData) : res Z :=
  let ws := weight_sequence episode_data in
  match index (-1) ws with
  | None => Raise ValueError
  | Some i =>
      match getitem ws (Z.of_nat i - 1) with
      | Some w => Ok w
      | None => Raise IndexError
      end
  end.

(** [run_agent_testing], lines 250-256. *)
Definition termination_type (self : Tester) (final_weight : Z) : string :=
  if final_weight <? safe_weight_min self * quantization_step self then
    "underweight"
  else if safe_weight_max self * quantization_step self <? final_weight then
    "overweight"
  else
    "safe".

(** The record that [run_agent_testing] appends to [episodes], lines
    278-290, by the keys that the report writer reads. *)
Record EpisodeInfo : Type := {
  info_episode_num : Z;
  info_switch_point : Z;
  info_model_selected_switching_point : Q;
  info_explored_switching_point : option Q;
  info_final_weight : Z;
  info_termination_type : string;
  info_q_value : list (Q * Q);
  info_total_time : Z
}.

(** Lines 250-290 for one episode: the agent's answers
    ([get_optimal_switch_point], [select_action], [q_table.copy()]) are
    arguments. *)
Definition episode_info (self : Tester) (episode_num : Z)
    (episode_data : EpisodeData) (current_switch_point : Z)
    (model_selected_next_switch_point next_switch_point : Q)
    (exploration_flag : bool) (q_table : list (Q * Q)) : EpisodeInfo :=
  let final_weight := final_weight episode_data in
  let termination_type := termination_type self final_weight in
  let explored_switch_point :=
    if exploration_flag then Some next_switch_point else None in
  {| info_episode_num := episode_num + 1;
     info_switch_point := current_switch_point;
     info_model_selected_switching_point := model_selected_next_switch_point;
     info_explored_switching_point := explored_switch_point;
     info_final_weight := final_weight;
     info_termination_type := termination_type;
     info_q_value := q_table;
     info_total_time := total_time episode_data |}.

End RealWorldTester.

(* ================================================================== *)
(** ** file_handler.py *)
(* ================================================================== *)

Module FileHandler.
Import RealWorldTester.

(** [openpyxl.styles.PatternFill] by the arguments it is built with. *)
Record PatternFill : Type := {
  start_color : string;
  end_color : string;
  fill_type : string
}.

(** [file_handler.py], lines 45-47. *)
Definition green_fill : PatternFill :=
  {| start_color := "C6EFCE"; end_color := "C6EFCE"; fill_type := "solid" |}.
Definition yellow_fill : PatternFill :=
  {| start_color := "FFEB9C"; end_color := "FFEB9C"; fill_type := "solid" |}.
Definition red_fill : PatternFill :=
  {| start_color := "FFC7CE"; end_color := "FFC7CE"; fill_type := "solid" |}.

(** [file_handler.py], lines 88-90: the dictionary literal and its
    [.get(value, green_fill)]. *)
Definition termination_fills : gmap string PatternFill :=
  <["Normal" := green_fill]>
  (<["Underflow" := yellow_fill]>
  (<["Overflow" := red_fill]> ∅)).

Definition termination_fill (value : string) : PatternFill :=
  default green_fill (termination_fills !! value).

(** [file_handler.py], lines 69 and 87-92: the fill of the two cells of
    the "Result" row of one episode record; the key 'termination_type' is
    present in every record that [run_agent_testing] builds, so the
    default of [.get('termination_type', 'Normal')] is never used. *)
Definition result_fill (info : EpisodeInfo) : PatternFill :=
  let value := info_termination_type info in
  termination_fill value.

End FileHandler.

(* ================================================================== *)
(** ** The rules of the design document that live in absent modules *)
(* ================================================================== *)

Module Design.

Inductive TerminationClass : Set := Safe | Overflow | Underflow.

Record Outcome : Type := {
  terminationClass : TerminationClass;
  overflowAmount : Z;
  underflowAmount : Z
}.

(** Modelled from the spec: the classification rule of the
    EpisodeSegmenter (section 4.2), which [real_data_processor.py]
    implements and which is not among the sources.  [finalWeight] below
    [min*step] is Underflow by [min*step - finalWeight], above [max*step]
    it is Overflow by [finalWeight - max*step], otherwise Safe with both
    amounts zero. *)
Definition classify (finalWeight min max step : Z) : Outcome :=
  if finalWeight <? min * step then
    {| terminationClass := Underflow;
       overflowAmount := 0;
       underflowAmount := min * step - finalWeight |}
  else if max * step <? finalWeight then
    {| terminationClass := Overflow;
       overflowAmount := finalWeight - max * step;
       underflowAmount := 0 |}
  else
    {| terminationClass := Safe; overflowAmount := 0; underflowAmount := 0 |}.

(** Modelled from the spec: the switching point of an episode (section
    4.2) is the weight of the sample immediately preceding the marker;
    there is none when the marker is absent or is the first sample.  The
    marker is the sentinel [-1] of the weight sequence. *)
Fixpoint weight_preceding_marker (weights : list Z) : option Z :=
  match weights with
  | [] => None
  | w :: rest =>
      if w =? -1 then None
      else
        match rest with
        | [] => None
        | m :: _ =>
            if m =? -1 then Some w else weight_preceding_marker rest
        end
  end.

Section Reward.

Variable overflowPenaltyConstant underflowPenaltyConstant : Q.

(** The divisor of the optional normalisation ("scaling may be
    normalized by quantization step"); [1] is no scaling. *)
Variable scale : positive.

(** The score inside the band, which the document constrains but does
    not define. *)
Variable safeScore : Z -> Q.

(** Modelled from the spec: the RewardFunction (section 4.3), which
    [reward_calculator.py] implements and which is not among the
    sources.  Overflow is [overflowPenaltyConstant * overflowAmount],
    Underflow is [underflowPenaltyConstant * underflowAmount], both
    over [scale]. *)
Definition reward (finalWeight : Z) (o : Outcome) : Q :=
  match terminationClass o with
  | Overflow => (overflowPenaltyConstant * (overflowAmount o # scale))%Q
  | Underflow => (underflowPenaltyConstant * (underflowAmount o # scale))%Q
  | Safe => safeScore finalWeight
  end.

End Reward.

(** The reward under the penalty constants of [config.py]. *)
Definition default_reward (scale : positive) (safeScore : Z -> Q)
    (finalWeight min max step : Z) : Q :=
  reward Config.DEFAULT_OVERFLOW_PENALTY_CONSTANT
         Config.DEFAULT_UNDERFLOW_PENALTY_CONSTANT
         scale safeScore finalWeight
         (classify finalWeight min max step).

End Design.

(* ================================================================== *)
(** ** Vocabulary of the properties *)
(* ================================================================== *)

Module Distribution.
Import Config.

(** Each element is strictly below the one before it. *)
Fixpoint strictly_decreasing {A} (ltb : A -> A -> bool) (l : list A) : bool :=
  match l with
  | x :: ((y :: _) as rest) => ltb y x && strictly_decreasing ltb rest
  | _ => true
  end.

Definition Qltb (x y : Q) : bool := negb (Qle_bool y x).

(** The distribution as pairs (step distance, probability). *)
Definition exploration_distribution : list (Z * float) :=
  zip EXPLORATION_STEPS EXPLORATION_PROBABILITIES.

End Distribution.

Module Samples.
Import Py RealWorldTester.

(** An episode dictionary around a weight sequence. *)
Definition episode_of_weights (ws : list Z) : EpisodeData :=
  {| raw_data := "";
     weight_sequence := ws;
     coarse_time := 0;
     fine_time := 0;
     total_time := 0;
     switching_point := 0;
     overflow_amount := 0;
     underflow_amount := 0;
     final_weight := 0;
     reward := None;
     filling_session := None |}.

(** A tester whose collaborators always answer: the parser keeps the
    transcript and reports a safe fill. *)
Definition answering_tester : Tester :=
  {| udp_client := fun _ => None;
     udp_connect := true;
     modbus_connect := true;
     parse_raw_data := fun raw =>
       Some {| raw_data := raw;
               weight_sequence := [740000; -1; 750000];
               coarse_time := 1;
               fine_time := 1;
               total_time := 2;
               switching_point := 740000;
               overflow_amount := 0;
               underflow_amount := 0;
               final_weight := 750000;
               reward := None;
               filling_session := None |};
     create_filling_session := fun d =>
       Some {| FillingSession.episode_length := total_time d;
               FillingSession.final_weight := final_weight d |};
     quantization_step := Config.DEFAULT_WEIGHT_QUANTIZATION_STEP;
     calculate_reward := fun _ _ _ => 0%Q;
     safe_weight_min := Config.DEFAULT_SAFE_WEIGHT_MIN;
     safe_weight_max := Config.DEFAULT_SAFE_WEIGHT_MAX;
     db_save := fun _ => None |}.

(** A tester whose parser rejects every transcript. *)
Definition rejecting_tester : Tester :=
  {| udp_client := fun _ => None;
     udp_connect := true;
     modbus_connect := true;
     parse_raw_data := fun _ => None;
     create_filling_session := fun _ => None;
     quantization_step := Config.DEFAULT_WEIGHT_QUANTIZATION_STEP;
     calculate_reward := fun _ _ _ => 0%Q;
     safe_weight_min := Config.DEFAULT_SAFE_WEIGHT_MIN;
     safe_weight_max := Config.DEFAULT_SAFE_WEIGHT_MAX;
     db_save := fun _ => None |}.

End Samples.

Module Stats.
Import Py RealWorldTester.

(** The six counters of [session_stats]. *)
Record Counters : Type := {
  total : Z;
  successful : Z;
  failed : Z;
  safe : Z;
  overflow : Z;
  underflow : Z
}.

(** The dictionary that holds them. *)
Definition stats_of (c : Counters) : gmap string Z :=
  <["total_episodes" := total c]>
  (<["successful_episodes" := successful c]>
  (<["failed_episodes" := failed c]>
  (<["safe_episodes" := safe c]>
  (<["overflow_episodes" := overflow c]>
  (<["underflow_episodes" := underflow c]> ∅))))).

Definition zero_counters : Counters :=
  {| total := 0; successful := 0; failed := 0;
     safe := 0; overflow := 0; underflow := 0 |}.

(** [d[k] += 1] on the six keys, counter by counter. *)
Definition bump (k : string) (c : Counters) : Counters :=
  {| total := if String.eqb k "total_episodes" then total c + 1 else total c;
     successful :=
       if String.eqb k "successful_episodes" then successful c + 1
       else successful c;
     failed :=
       if String.eqb k "failed_episodes" then failed c + 1 else failed c;
     safe := if String.eqb k "safe_episodes" then safe c + 1 else safe c;
     overflow :=
       if String.eqb k "overflow_episodes" then overflow c + 1
       else overflow c;
     underflow :=
       if String.eqb k "underflow_episodes" then underflow c + 1
       else underflow c |}.

(** The counter that [_update_session_stats] picks for an episode. *)
Definition class_key (episode_data : EpisodeData) : string :=
  if 0 <? overflow_amount episode_data then "overflow_episodes"
  else if 0 <? underflow_amount episode_data then "underflow_episodes"
  else "safe_episodes".

Definition bump_success (episode_data : EpisodeData) (c : Counters) : Counters :=
  bump (class_key episode_data)
    (bump "successful_episodes" (bump "total_episodes" c)).

(** The two failures after the wait loop: the transcript does not parse,
    or no filling session can be built from what was parsed. *)
Definition builds_no_session (self : Tester) (raw : string) : Prop :=
  parse_raw_data self raw = None
  \/ exists d, parse_raw_data self raw = Some d
       /\ create_filling_session self d = None.

(** The keys of [session_stats], lines 71-78. *)
Definition counter_keys : list string :=
  ["total_episodes"; "successful_episodes"; "failed_episodes";
   "safe_episodes"; "overflow_episodes"; "underflow_episodes"].

(** A dictionary that holds the six counters (and maybe more), each of
    a size that counting episodes can reach: below 2^63 in absolute
    value. *)
Definition has_counters (stats : gmap string Z) : bool :=
  forallb (fun k => match stats !! k with
                    | Some v => Z.abs v <? 2 ^ 63
                    | None => false
                    end)
          counter_keys.

(** [stats'] is [stats] with the counter [k] one higher. *)
Definition incremented (k : string) (stats stats' : gmap string Z) : Prop :=
  exists v, stats !! k = Some v /\ stats' = <[k := v + 1]> stats.

Definition consistent (c : Counters) : Prop :=
  total c = successful c
  /\ successful c = safe c + overflow c + underflow c.

(** How many calls returned an episode, and how many returned [None]. *)
Fixpoint returned (rs : list (option EpisodeData)) : Z :=
  match rs with
  | [] => 0
  | Some _ :: rs' => 1 + returned rs'
  | None :: rs' => returned rs'
  end.

Fixpoint not_returned (rs : list (option EpisodeData)) : Z :=
  match rs with
  | [] => 0
  | Some _ :: rs' => not_returned rs'
  | None :: rs' => 1 + not_returned rs'
  end.

(** What one episode does to the counters, by the way it ends. *)
Definition episode_effect (c c' : Counters)
    (r : res (option EpisodeData)) : Prop :=
  consistent c'
  /\ match r with
     | Ok (Some _) => total c' = total c + 1 /\ failed c' = failed c
     | Ok None => total c' = total c /\ failed c' = failed c + 1
     | Raise e => is_Exception e = false
     | Hang => False
     end.

End Stats.

(* ================================================================== *)
(** ** Exceptions beyond the five of [Py] *)
(* ================================================================== *)

Module PyExc.

(** An exception class: one of [Py.exn], or a class given by its name.
    The classes named below ([UnboundLocalError], [RuntimeError],
    [AttributeError]) all derive from [Exception]. *)
Inductive cls : Type :=
| Builtin (e : Py.exn)
| Named (name : string).

Definition is_Exception (c : cls) : bool :=
  match c with
  | Builtin e => Py.is_Exception e
  | Named _ => true
  end.

(** What running a piece of code ends in; [Runs] is a run that has not
    ended when its budget (passes, socket events) is used up. *)
Inductive outcome (A : Type) : Type :=
| Returns (a : A)
| Raises (c : cls)
| Runs.
Arguments Returns {A} a.
Arguments Raises {A} c.
Arguments Runs {A}.

Definition M (S A : Type) : Type := S -> outcome A * S.

Definition ret {S A} (a : A) : M S A := fun s => (Returns a, s).

Definition bind {S A B} (m : M S A) (k : A -> M S B) : M S B :=
  fun s =>
    match m s with
    | (Returns a, s') => k a s'
    | (Raises c, s') => (Raises c, s')
    | (Runs, s') => (Runs, s')
    end.

Definition raise {S A} (c : cls) : M S A := fun s => (Raises c, s).
Definition runs {S A} : M S A := fun s => (Runs, s).
Definition modify {S} (f : S -> S) : M S unit := fun s => (Returns tt, f s).

(** The result of a call that does not touch the store. *)
Definition of_res {S A} (r : Py.res A) : M S A :=
  match r with
  | Py.Ok a => ret a
  | Py.Raise e => raise (Builtin e)
  | Py.Hang => runs
  end.

(** A call that returns nothing and may raise. *)
Definition of_raised {S} (o : option Py.exn) : M S unit :=
  match o with
  | Some e => raise (Builtin e)
  | None => ret tt
  end.

(** [try: body  except Exception: handler]. *)
Definition try_except_Exception {S A} (body : M S A) (handler : cls -> M S A)
  : M S A :=
  fun s =>
    match body s with
    | (Raises c, s') =>
        if is_Exception c then handler c s' else (Raises c, s')
    | r => r
    end.

(** [try: body  except KeyboardInterrupt: h1  except Exception: h2]. *)
Definition try_except_KeyboardInterrupt_Exception {S A}
    (body : M S A) (h1 : M S A) (h2 : cls -> M S A) : M S A :=
  fun s =>
    match body s with
    | (Raises (Builtin Py.KeyboardInterrupt), s') => h1 s'
    | (Raises c, s') =>
        if is_Exception c then h2 c s' else (Raises c, s')
    | r => r
    end.

End PyExc.

Notation "'let+' x ':=' m 'in' k" := (PyExc.bind m (fun x => k))
  (at level 10, x name, m at level 100, k at level 200).
Notation "m ';+' k" := (PyExc.bind m (fun _ => k))
  (at level 100, k at level 200, right associativity).

(* ================================================================== *)
(** ** tcp_client.py *)
(* ================================================================== *)

Module TcpClient.
Import PyExc.

(** [''.join(buffer) if buffer else None]. *)
Definition join_buffer (buffer : list string) : option string :=
  match buffer with
  | [] => None
  | _ :: _ => Some (String.concat "" buffer)
  end.

(** A reading of [time.time()], or a timeout in seconds: a binary64
    float.  The defaults of the timeouts are the integers 1 and 0; an
    integer that binary64 holds exactly compares with a float as the
    float of the same value does, and is written as that float here. *)
Definition seconds : Type := float.

(** [time.time() - last_received_time >= timeout], line 152. *)
Definition udp_idle (timeout now last_received_time : seconds) : bool :=
  PrimFloat.leb timeout (PrimFloat.sub now last_received_time).

(** [(time.time() - last_received_time) > self.timeout], line 84. *)
Definition tcp_idle (timeout now last_received_time : seconds) : bool :=
  PrimFloat.ltb timeout (PrimFloat.sub now last_received_time).

(** [data.decode('ascii')], line 78: the text of [data] when every byte
    is below 128; [None] stands for the [UnicodeDecodeError] of any
    other byte string. *)
Fixpoint is_ascii (data : string) : bool :=
  match data with
  | EmptyString => true
  | String c rest => (Ascii.N_of_ascii c <? 128)%N && is_ascii rest
  end.

Definition decode_ascii (data : string) : option string :=
  if is_ascii data then Some data else None.

(** One turn of [UDPClient.receive_data]'s loop, as the socket answers
    [recvfrom], with the value that [time.time()] gives in that turn. *)
Inductive udp_event : Type :=
| Datagram (msg : string) (now : seconds)
    (* a datagram; [msg] is what [decode('ascii', errors='replace')],
       which never raises, makes of it *)
| SocketTimeout (now : seconds)         (* [socket.timeout] is raised *)
| SocketFailure (e : Py.exn).           (* anything else is raised *)
Arguments Datagram msg%_string now%_float.
Arguments SocketTimeout now%_float.

(** [UDPClient.receive_data], lines 144-156: the loop and the return. *)
Fixpoint udp_receive_loop (timeout : seconds) (events : list udp_event)
    (buffer : list string) (last_received_time : seconds)
  : outcome (option string) :=
  match events with
  | [] => Runs
  | Datagram msg now :: rest =>
      udp_receive_loop timeout rest (buffer ++ [msg]) now
  | SocketTimeout now :: rest =>
      if udp_idle timeout now last_received_time then
        Returns (join_buffer buffer)                    (* break *)
      else
        udp_receive_loop timeout rest buffer last_received_time
  | SocketFailure e :: _ => Raises (Builtin e)
  end.

(** [UDPClient.receive_data], lines 138-156.  [connected] is the truth
    value of [self.client_socket], [start] the first reading of the
    clock; [timeout] defaults to 1. *)
Definition UDPClient_receive_data (connected : bool) (start : seconds)
    (timeout : seconds) (events : list udp_event) : outcome (option string) :=
  let buffer := [] in
  let last_received_time := start in
  if negb connected then Raises (Named "RuntimeError")
  else udp_receive_loop timeout events buffer last_received_time.

(** One turn of [TCPClient.receive_data]'s loop. *)
Inductive tcp_event : Type :=
| Recv (data : string) (now : seconds)
    (* [recv] returns the bytes [data], empty at the end; [now] is the
       clock read after [data] was decoded and appended *)
| RecvTimeout (now : seconds)           (* [socket.timeout] is raised *)
| RecvFailure (e : Py.exn).             (* anything else is raised *)
Arguments Recv data%_string now%_float.
Arguments RecvTimeout now%_float.

(** [TCPClient.receive_data], lines 74-93: the loop and the return.  A
    chunk that is not ASCII raises [UnicodeDecodeError] at line 78, inside
    the [try]; the handler of line 89 takes it as it takes any
    [Exception], and the method returns [None]. *)
Fixpoint tcp_receive_loop (timeout : seconds) (events : list tcp_event)
    (buffer : list string) (last_received_time : seconds)
  : outcome (option string) :=
  match events with
  | [] => Runs
  | Recv data now :: rest =>
      if Py.truthy (Some data) then
        match decode_ascii data with
        | Some text => tcp_receive_loop timeout rest (buffer ++ [text]) now
        | None => Returns None                          (* return None *)
        end
      else
        Returns (join_buffer buffer)                    (* break *)
  | RecvTimeout now :: rest =>
      if tcp_idle timeout now last_received_time then
        Returns (join_buffer buffer)                    (* break *)
      else
        tcp_receive_loop timeout rest buffer last_received_time
  | RecvFailure e :: _ =>
      if Py.is_Exception e then Returns None            (* return None *)
      else Raises (Builtin e)
  end.

(** [TCPClient.receive_data], lines 60-93; [timeout] is [self.timeout]. *)
Definition TCPClient_receive_data (connected : bool) (start : seconds)
    (timeout : seconds) (events : list tcp_event) : outcome (option string) :=
  if negb connected then Returns None
  else
    let buffer := [] in
    let last_received_time := start in
    tcp_receive_loop timeout events buffer last_received_time.

Arguments udp_idle (timeout now last_received_time)%_float.
Arguments tcp_idle (timeout now last_received_time)%_float.
Arguments UDPClient_receive_data connected (start timeout)%_float events.
Arguments TCPClient_receive_data connected (start timeout)%_float events.

(** The texts that arrive in a run of events. *)
Definition udp_messages (events : list udp_event) : list string :=
  flat_map (fun ev => match ev with Datagram msg _ => [msg] | _ => [] end)
           events.

Definition tcp_messages (events : list tcp_event) : list string :=
  flat_map (fun ev => match ev with Recv data _ => [data] | _ => [] end)
           events.

(** The clock reading kept after a run of events. *)
Fixpoint udp_last_received (last : seconds) (events : list udp_event)
  : seconds :=
  match events with
  | [] => last
  | Datagram _ now :: rest => udp_last_received now rest
  | _ :: rest => udp_last_received last rest
  end.

Fixpoint tcp_last_received (last : seconds) (events : list tcp_event)
  : seconds :=
  match events with
  | [] => last
  | Recv _ now :: rest => tcp_last_received now rest
  | _ :: rest => tcp_last_received last rest
  end.

(** A run of events through which the loop keeps listening: no failure,
    and at no timeout the test of line 152 holds. *)
Fixpoint udp_listening (timeout last : seconds) (events : list udp_event)
  : bool :=
  match events with
  | [] => true
  | Datagram _ now :: rest => udp_listening timeout now rest
  | SocketTimeout now :: rest =>
      negb (udp_idle timeout now last) && udp_listening timeout last rest
  | SocketFailure _ :: _ => false
  end.

(** The same for TCP: moreover every [recv] brings data, and the data is
    ASCII. *)
Fixpoint tcp_listening (timeout last : seconds) (events : list tcp_event)
  : bool :=
  match events with
  | [] => true
  | Recv data now :: rest =>
      Py.truthy (Some data) && is_ascii data
      && tcp_listening timeout now rest
  | RecvTimeout now :: rest =>
      negb (tcp_idle timeout now last) && tcp_listening timeout last rest
  | RecvFailure _ :: _ => false
  end.

Arguments udp_last_received last%_float events.
Arguments tcp_last_received last%_float events.
Arguments udp_listening (timeout last)%_float events.
Arguments tcp_listening (timeout last)%_float events.

End TcpClient.

(* ================================================================== *)
(** ** file_handler.py, the rest of the report writer *)
(* ================================================================== *)

Module ReportWriter.
Import PyExc RealWorldTester FileHandler.

(** What [open] and [write] answer; [FailsWith c] is an exception outside
    [IOError]. *)
Inductive file_result : Type :=
| Written
| FailsWithIOError
| FailsWith (c : cls).

(** [write_to_text], lines 11-21, as far as its outcome goes: [IOError]
    is caught and reported on the console. *)
Definition write_to_text (file : file_result) : outcome unit :=
  match file with
  | Written => Returns tt
  | FailsWithIOError => Returns tt
  | FailsWith c => Raises c
  end.

(** Line 50. *)
Definition num_columns : Z := 2.

(** Lines 65-72: the labels of [header_info], in the order of the
    dictionary. *)
Definition header_labels : list string :=
  ["Experienced"; "Model-Selected"; "Explored"; "Result"; "Total Time";
   "Total Weight"].

(** The frame of the block written for one episode record. *)
Record Block : Type := {
  episode_col : Z;                  (* the first of its columns *)
  title : string;                   (* the merged cell of row 1 *)
  result_row_fill : PatternFill;    (* the fill of the "Result" row *)
  data_header_row : Z               (* the row of "Weight" and "Q Value" *)
}.

(** Lines 53-97 for one record: the title (line 59), the header rows
    (lines 74-94, one row per label from row 2 on) and the row of the
    column headers (line 97). *)
Definition write_block (start_col : Z) (episode_info : EpisodeInfo) : Block :=
  let episode_col := start_col in
  let current_row := fold_left (fun row _ => row + 1) header_labels 2 in
  {| episode_col := episode_col;
     title := "Episode " +:+ pretty (info_episode_num episode_info + 1);
     result_row_fill := result_fill episode_info;
     data_header_row := current_row |}.

(** The loop of line 52: [start_col] goes up by [num_columns] per record
    (line 158), and [data_header_row] is a local that only the body of
    the loop binds. *)
Fixpoint write_blocks (start_col : Z) (data_header_row_var : option Z)
    (all_episodes_info : list EpisodeInfo) : list Block * option Z :=
  match all_episodes_info with
  | [] => ([], data_header_row_var)
  | episode_info :: rest =>
      let b := write_block start_col episode_info in
      let '(bs, last) :=
        write_blocks (start_col + num_columns) (Some (data_header_row b)) rest in
      (b :: bs, last)
  end.

Record Workbook : Type := {
  blocks : list Block;
  freeze_panes : string
}.

(** [write_qvalue_updates_to_excel], lines 25-162, as far as the frames
    go.  Line 161 reads [data_header_row] after the loop; [save] is what
    [wb.save(file_path)] raises, if anything. *)
Definition write_qvalue_updates_to_excel (all_episodes_info : list EpisodeInfo)
    (save : option cls) : outcome Workbook :=
  let start_col := 1 in
  let '(bs, data_header_row_var) := write_blocks start_col None all_episodes_info in
  match data_header_row_var with
  | None => Raises (Named "UnboundLocalError")
  | Some data_header_row =>
      let wb := {| blocks := bs;
                   freeze_panes := "A" +:+ pretty (data_header_row + 1) |} in
      match save with
      | Some c => Raises c
      | None => Returns wb
      end
  end.

End ReportWriter.

(* ================================================================== *)
(** ** real_world_tester.py, the agent loop *)
(* ================================================================== *)

Module AgentTesting.
Import PyExc RealWorldTester ReportWriter.

(** The calls that [_update_agent_with_episode] makes on the agent. *)
Inductive agent_call : Type :=
| UpdateQValue (switching_point : Z) (reward : Q)
| TrainEpisode (switching_point : Z)
| UpdateExplorationRate.

(** The agent, by what its calls answer.  An [option Py.exn] is the
    exception that the call raises, if any. *)
Record Agent : Type := {
  type_name : string;                           (* [type(agent).__name__] *)
  _update_q_value : Z -> Q -> option Py.exn;
  train_episode : Z -> option Py.exn;
  has_update_exploration_rate : bool;           (* the [hasattr] of line 410 *)
  (** [agent._update_exploration_rate()] and the [logging.debug] line
      that formats [agent.exploration_rate] after it. *)
  _update_exploration_rate : option Py.exn;
  get_optimal_switch_point : Py.res Q;
  select_action : Q -> Py.res (Q * bool);
  q_table : list (Q * Q)
}.

(** A call on the agent: it is made, then it may raise. *)
Definition call_agent (c : agent_call) (raised : option Py.exn)
  : M (list agent_call) unit :=
  modify (fun calls => calls ++ [c]) ;+
  of_raised raised.

(** [_update_agent_with_episode], lines 377-412, over the list of the
    calls made on the agent. *)
Definition _update_agent_with_episode (self : Tester) (agent : Agent)
    (filling_session : option FillingSession.t) (switching_point : Z)
  : M (list agent_call) unit :=
  try_except_Exception
    (let agent_type := type_name agent in
     if String.eqb agent_type "QLearningAgent" then
       match filling_session with
       | None => raise (Named "AttributeError")
       | Some fs =>
           let episode_length := FillingSession.episode_length fs in
           let final_weight := FillingSession.final_weight fs in
           let reward :=
             calculate_reward self episode_length final_weight "mab" in
           call_agent (UpdateQValue switching_point reward)
                      (_update_q_value agent switching_point reward)
       end
     else if existsb (String.eqb agent_type)
               ["MonteCarloAgent"; "TDAgent"; "StandardQLearningAgent"] then
       call_agent (TrainEpisode switching_point)
                  (train_episode agent switching_point)
     else
       ret tt)                                          (* logging.warning *)
    (fun _ => ret tt) ;+                                (* logging.error *)
  if has_update_exploration_rate agent then
    call_agent UpdateExplorationRate (_update_exploration_rate agent)
  else
    ret tt.

(** [d[k]] on a dictionary. *)
Definition get_item {V} (k : string) (d : gmap string V) : Py.res V :=
  match d !! k with
  | Some v => Py.Ok v
  | None => Py.Raise Py.KeyError
  end.

(** What the collaborators of [run_agent_testing] answer during one pass
    of its loop. *)
Record Pass : Type := {
  pass_self : Tester;
  pass_agent : Agent;
  (** [modbus_client.send_switching_point]; the flag it returns is not
      read. *)
  send_switching_point : Q -> option Py.exn;
  (** [logger.get_output_paths()]. *)
  get_output_paths : Py.res (gmap string string);
  (** The file behind [write_to_text]. *)
  text_file : file_result
}.

(** The tester and the locals of [run_agent_testing] during a run. *)
Record RunState : Type := {
  session_stats : gmap string Z;
  episodes : list EpisodeInfo;
  episode_num : Z;
  output_paths : option (gmap string string);   (* [None]: not bound yet *)
  sent : list Q;                   (* the calls of [send_switching_point] *)
  disconnected : bool              (* [disconnect_devices] has run *)
}.

Definition initial_state (stats : gmap string Z) : RunState :=
  {| session_stats := stats;
     episodes := [];
     episode_num := 1;
     output_paths := None;
     sent := [];
     disconnected := false |}.

Definition with_session_stats (stats : gmap string Z) (st : RunState) : RunState :=
  {| session_stats := stats;
     episodes := episodes st;
     episode_num := episode_num st;
     output_paths := output_paths st;
     sent := sent st;
     disconnected := disconnected st |}.

Definition with_output_paths (paths : gmap string string) (st : RunState)
  : RunState :=
  {| session_stats := session_stats st;
     episodes := episodes st;
     episode_num := episode_num st;
     output_paths := Some paths;
     sent := sent st ;
     disconnected := disconnected st |}.

Definition with_sent (next_switch_point : Q) (st : RunState) : RunState :=
  {| session_stats := session_stats st;
     episodes := episodes st;
     episode_num := episode_num st;
     output_paths := output_paths st;
     sent := sent st ++ [next_switch_point];
     disconnected := disconnected st |}.

(** Lines 302-305: [episodes.append(episode_data)] and
    [episode_num += 1]. *)
Definition with_episode (info : EpisodeInfo) (st : RunState) : RunState :=
  {| session_stats := session_stats st;
     episodes := episodes st ++ [info];
     episode_num := episode_num st + 1;
     output_paths := output_paths st;
     sent := sent st;
     disconnected := disconnected st |}.

Definition with_disconnected (st : RunState) : RunState :=
  {| session_stats := session_stats st;
     episodes := episodes st;
     episode_num := episode_num st;
     output_paths := output_paths st;
     sent := sent st;
     disconnected := true |}.

(** Code of [Py.M] on [session_stats] run inside [run_agent_testing]. *)
Definition on_session_stats {A} (m : Py.M (gmap string Z) A) : M RunState A :=
  fun st =>
    match m (session_stats st) with
    | (Py.Ok a, stats') => (Returns a, with_session_stats stats' st)
    | (Py.Raise e, stats') => (Raises (Builtin e), with_session_stats stats' st)
    | (Py.Hang, stats') => (Runs, with_session_stats stats' st)
    end.

(** [run_agent_testing], lines 239-305: one pass of the loop. *)
Definition agent_pass (p : Pass) (fuel : nat) : M RunState unit :=
  let self := pass_self p in
  let agent := pass_agent p in
  let+ episode_data :=
    on_session_stats (Py.call_method 0 (@nil Q) (run_episode self fuel)) in
  match episode_data with
  | None => ret tt
  | Some episode_data =>
      let+ switch_point := of_res (current_switch_point episode_data) in
      let filling_session := filling_session episode_data in
      (fun st =>
         (fst (_update_agent_with_episode self agent filling_session
                 switch_point []), st)) ;+
      let+ model_selected_next_switch_point :=
        of_res (get_optimal_switch_point agent) in
      let+ action :=
        of_res (select_action agent model_selected_next_switch_point) in
      let next_switch_point := fst action in
      let exploration_flag := snd action in
      fun st =>
        let info :=
          episode_info self (episode_num st) episode_data switch_point
            model_selected_next_switch_point next_switch_point
            exploration_flag (q_table agent) in
        (modify (with_sent next_switch_point) ;+
         of_raised (send_switching_point p next_switch_point) ;+
         let+ paths := of_res (get_output_paths p) in
         modify (with_output_paths paths) ;+
         let+ q_values_path := of_res (get_item "q_values_path" paths) in
         (fun st' => (write_to_text (text_file p), st')) ;+
         modify (with_episode info)) st
  end.

(** [run_agent_testing], line 238: [while True]. *)
Fixpoint agent_loop (passes : nat -> Pass) (k fuel : nat) : M RunState unit :=
  match fuel with
  | O => runs
  | S fuel' =>
      agent_pass (passes k) fuel ;+
      agent_loop passes (S k) fuel'
  end.

(** [run_agent_testing], lines 312-316: the [finally] block.  [save] is
    what saving the workbook raises, if anything; the three [close()]
    calls of [disconnect_devices] return. *)
Definition finally_block (save : option cls) : M RunState (list EpisodeInfo) :=
  fun st =>
    match output_paths st with
    | None => (Raises (Named "UnboundLocalError"), st)
    | Some paths =>
        match get_item "excel_path" paths with
        | Py.Ok excel_path =>
            match write_qvalue_updates_to_excel (episodes st) save with
            | Returns _ =>
                let st' := with_disconnected st in
                match _print_session_summary (session_stats st') with
                | Py.Ok _ => (Returns (episodes st'), st')
                | Py.Raise e => (Raises (Builtin e), st')
                | Py.Hang => (Runs, st')
                end
            | Raises c => (Raises c, st)
            | Runs => (Runs, st)
            end
        | Py.Raise e => (Raises (Builtin e), st)
        | Py.Hang => (Runs, st)
        end
    end.

(** [run_agent_testing], lines 230-316, from the statistics [stats]. *)
Definition run_agent_testing (self : Tester) (passes : nat -> Pass)
    (save : option cls) (fuel : nat) (stats : gmap string Z)
  : outcome (list EpisodeInfo) * RunState :=
  let st := initial_state stats in
  if negb (connect_devices self) then (Returns [], st)
  else
    match
      try_except_KeyboardInterrupt_Exception
        (agent_loop passes 0 fuel) (ret tt) (fun _ => ret tt) st
    with
    | (Runs, st') => (Runs, st')
    | (_, st') => finally_block save st'
    end.

End AgentTesting.

(* ================================================================== *)
(** ** Vocabulary of the further properties *)
(* ================================================================== *)

Module Variants.
Import Py RealWorldTester.

(** The same tester over another database. *)
Definition with_db_save (db : EpisodeData -> option exn) (self : Tester)
  : Tester :=
  {| udp_client := udp_client self;
     udp_connect := udp_connect self;
     modbus_connect := modbus_connect self;
     parse_raw_data := parse_raw_data self;
     create_filling_session := create_filling_session self;
     quantization_step := quantization_step self;
     calculate_reward := calculate_reward self;
     safe_weight_min := safe_weight_min self;
     safe_weight_max := safe_weight_max self;
     db_save := db |}.

(** The dictionary that [run_episode] returns for the parsed data [d]
    and the filling session [fs]: lines 148-156. *)
Definition completed (self : Tester) (d : EpisodeData) (fs : FillingSession.t)
  : EpisodeData :=
  with_reward d
    (calculate_reward self (FillingSession.episode_length fs)
       (FillingSession.final_weight fs) "standard")
    fs.

(** Counters that are consistent and not negative. *)
Definition sound (c : Stats.Counters) : Prop :=
  Stats.consistent c
  /\ 0 <= Stats.failed c
  /\ 0 <= Stats.safe c
  /\ 0 <= Stats.overflow c
  /\ 0 <= Stats.underflow c.

(** The division that [_print_session_summary] makes for the counters
    [c], by its operands: line 372, guarded by line 371. *)
Definition safe_rate_division (c : Stats.Counters) : option (Z * Z) :=
  if 0 <? Stats.successful c then Some (Stats.safe c, Stats.successful c)
  else None.

End Variants.

Module LoopInvariants.
Import RealWorldTester AgentTesting.

(** The records carry the episode numbers 2, 3, 4, ... in order. *)
Definition numbered (eps : list EpisodeInfo) : Prop :=
  map info_episode_num eps
  = map (fun i : nat => Z.of_nat i + 2) (seq 0 (length eps)).

(** What holds of the locals between two passes of the loop. *)
Definition between_passes (st : RunState) : Prop :=
  episode_num st = Z.of_nat (length (episodes st)) + 1
  /\ numbered (episodes st)
  /\ length (sent st) = length (episodes st)
  /\ (episodes st <> [] -> output_paths st <> None)
  /\ disconnected st = false.

(** What holds of them wherever the loop stops. *)
Definition at_any_stop (st : RunState) : Prop :=
  numbered (episodes st)
  /\ (length (episodes st) <= length (sent st) <= S (length (episodes st)))%nat
  /\ (episodes st <> [] -> output_paths st <> None)
  /\ disconnected st = false.

(** The calls on the agent that end [_update_agent_with_episode]: the
    update of the exploration rate, when the agent has one. *)
Definition exploration_calls (agent : Agent) : list agent_call :=
  if has_update_exploration_rate agent then [UpdateExplorationRate] else [].

Definition exploration_outcome (agent : Agent) : PyExc.outcome unit :=
  if has_update_exploration_rate agent then
    match _update_exploration_rate agent with
    | Some e => PyExc.Raises (PyExc.Builtin e)
    | None => PyExc.Returns tt
    end
  else PyExc.Returns tt.

(** An agent that answers every call. *)
Definition answering_agent (name : string) : Agent :=
  {| type_name := name;
     _update_q_value := fun _ _ => None;
     train_episode := fun _ => None;
     has_update_exploration_rate := true;
     _update_exploration_rate := None;
     get_optimal_switch_point := Py.Ok (45 # 1)%Q;
     select_action := fun q => Py.Ok (q, false);
     q_table := [((45 # 1)%Q, (-125 # 1)%Q)] |}.

(** The counters [c] after [n] more failed episodes. *)
Definition add_failed (n : Z) (c : Stats.Counters) : Stats.Counters :=
  {| Stats.total := Stats.total c;
     Stats.successful := Stats.successful c;
     Stats.failed := Stats.failed c + n;
     Stats.safe := Stats.safe c;
     Stats.overflow := Stats.overflow c;
     Stats.underflow := Stats.underflow c |}.

(** A tester whose parser gives a weight sequence without marker. *)
Definition markerless_tester : Tester :=
  {| udp_client := fun _ => None;
     udp_connect := true;
     modbus_connect := true;
     parse_raw_data := fun raw =>
       Some {| raw_data := raw;
               weight_sequence := [740000; 750000];
               coarse_time := 1;
               fine_time := 1;
               total_time := 2;
               switching_point := 740000;
               overflow_amount := 0;
               underflow_amount := 0;
               final_weight := 750000;
               reward := None;
               filling_session := None |};
     create_filling_session := fun d =>
       Some {| FillingSession.episode_length := total_time d;
               FillingSession.final_weight := final_weight d |};
     quantization_step := Config.DEFAULT_WEIGHT_QUANTIZATION_STEP;
     calculate_reward := fun _ _ _ => 0%Q;
     safe_weight_min := Config.DEFAULT_SAFE_WEIGHT_MIN;
     safe_weight_max := Config.DEFAULT_SAFE_WEIGHT_MAX;
     db_save := fun _ => None |}.

(** Collaborators that answer every call of a pass. *)
Definition answering_pass (self : Tester) : Pass :=
  {| pass_self := self;
     pass_agent := answering_agent "QLearningAgent";
     send_switching_point := fun _ => None;
     get_output_paths :=
       Py.Ok (<["q_values_path" := "q_values.txt"]>
                (<["excel_path" := "report.xlsx"]> ∅));
     text_file := ReportWriter.Written |}.

(** The same, but the operator interrupts the sending. *)
Definition interrupted_pass (self : Tester) : Pass :=
  {| pass_self := self;
     pass_agent := answering_agent "QLearningAgent";
     send_switching_point := fun _ => Some Py.KeyboardInterrupt;
     get_output_paths :=
       Py.Ok (<["q_values_path" := "q_values.txt"]>
                (<["excel_path" := "report.xlsx"]> ∅));
     text_file := ReportWriter.Written |}.

(** Two passes that answer, then the interrupt. *)
Definition two_passes_then_interrupt (k : nat) : Pass :=
  if (k <? 2)%nat then answering_pass Samples.answering_tester
  else interrupted_pass Samples.answering_tester.

End LoopInvariants.

(* ================================================================== *)
(** ** Properties: the configuration *)
(* ================================================================== *)

Module ConfigFacts.
Import Config Distribution.

(** C8. The configured exploration step distribution puts the
    probabilities 0.33, 0.27, 0.20, 0.13, 0.07 on the step distances
    1, 2, 3, 4, 5; the probabilities add up to exactly 1, as decimal
    fractions and as the binary64 numbers of the interpreter added in
    list order (from either end), and they strictly decrease with the
    distance. *)
Theorem exploration_distribution_is_categorical :
  exploration_distribution =
    [(1, 0.33%float); (2, 0.27%float); (3, 0.2%float); (4, 0.13%float);
     (5, 0.07%float)]
  /\ fold_left PrimFloat.add EXPLORATION_PROBABILITIES 0%float = 1%float
  /\ fold_right PrimFloat.add 0%float EXPLORATION_PROBABILITIES = 1%float
  /\ (fold_right Qplus 0 EXPLORATION_PROBABILITIES_decimal == 1)%Q
  /\ strictly_decreasing PrimFloat.ltb EXPLORATION_PROBABILITIES = true
  /\ strictly_decreasing Qltb EXPLORATION_PROBABILITIES_decimal = true
  /\ strictly_decreasing Z.ltb (rev EXPLORATION_STEPS) = true.
Proof.
  repeat split; vm_compute; reflexivity.
Qed.

(** In binary64 the exact sum is a matter of order: with 0.13 added before
    0.2 the result is the float next above 1. *)
Remark float_sum_depends_on_order :
  fold_left PrimFloat.add [0.33; 0.27; 0.13; 0.2; 0.07]%float 0%float
  = PrimFloat.next_up 1%float.
Proof. vm_compute. reflexivity. Qed.

End ConfigFacts.

(* ================================================================== *)
(** ** Properties: band, classification and reward *)
(* ================================================================== *)

Module RewardFacts.
Import Config RealWorldTester Design.

Lemma classify_above (min max step d : Z) :
  min * step <= max * step -> 0 < d ->
  classify (max * step + d) min max step =
    {| terminationClass := Overflow; overflowAmount := d; underflowAmount := 0 |}.
Proof.
  intros Hband Hd. unfold classify.
  destruct (Z.ltb_spec (max * step + d) (min * step)); [lia |].
  destruct (Z.ltb_spec (max * step) (max * step + d)); [| lia].
  f_equal. lia.
Qed.

Lemma classify_below (min max step d : Z) :
  0 < d ->
  classify (min * step - d) min max step =
    {| terminationClass := Underflow; overflowAmount := 0; underflowAmount := d |}.
Proof.
  intros Hd. unfold classify.
  destruct (Z.ltb_spec (min * step - d) (min * step)); [| lia].
  f_equal. lia.
Qed.

(** C7. For a band [min*step, max*step] and a deviation [d > 0], the
    episode that ends [d] above the band is an Overflow by [d], the one
    that ends [d] below it is an Underflow by [d], and under the penalty
    constants of the configuration the reward of the first is strictly
    below the reward of the second (both are negative), whatever the
    scaling; the overflow constant is the larger in absolute value,
    370 against 100. *)
Theorem overflow_reward_below_underflow_reward
    (scale : positive) (safeScore : Z -> Q) (min max step d : Z) :
  min * step <= max * step ->
  0 < d ->
  terminationClass (classify (max * step + d) min max step) = Overflow
  /\ overflowAmount (classify (max * step + d) min max step) = d
  /\ terminationClass (classify (min * step - d) min max step) = Underflow
  /\ underflowAmount (classify (min * step - d) min max step) = d
  /\ (default_reward scale safeScore (max * step + d) min max step
       < default_reward scale safeScore (min * step - d) min max step)%Q
  /\ (default_reward scale safeScore (min * step - d) min max step < 0)%Q
  /\ (Qabs DEFAULT_UNDERFLOW_PENALTY_CONSTANT
       < Qabs DEFAULT_OVERFLOW_PENALTY_CONSTANT)%Q
  /\ (Qabs DEFAULT_OVERFLOW_PENALTY_CONSTANT == 370)%Q
  /\ (Qabs DEFAULT_UNDERFLOW_PENALTY_CONSTANT == 100)%Q.
Proof.
  intros Hband Hd. unfold default_reward.
  rewrite (classify_above min max step d Hband Hd).
  rewrite (classify_below min max step d Hd).
  repeat split; try reflexivity.
  - unfold reward, Qlt; simpl. nia.
  - unfold reward, Qlt; simpl. nia.
Qed.

Lemma overflow_reward_below_underflow_reward_default :
  DEFAULT_SAFE_WEIGHT_MIN * DEFAULT_WEIGHT_QUANTIZATION_STEP
    <= DEFAULT_SAFE_WEIGHT_MAX * DEFAULT_WEIGHT_QUANTIZATION_STEP
  /\ 0 < 18273
  /\ (default_reward 1 (fun _ => 0%Q) 778273
        DEFAULT_SAFE_WEIGHT_MIN DEFAULT_SAFE_WEIGHT_MAX
        DEFAULT_WEIGHT_QUANTIZATION_STEP
      < default_reward 1 (fun _ => 0%Q) 721727
          DEFAULT_SAFE_WEIGHT_MIN DEFAULT_SAFE_WEIGHT_MAX
          DEFAULT_WEIGHT_QUANTIZATION_STEP)%Q.
Proof.
  split; [vm_compute; discriminate |].
  split; [reflexivity |].
  exact (proj1 (proj2 (proj2 (proj2 (proj2
    (overflow_reward_below_underflow_reward 1 (fun _ => 0%Q)
       DEFAULT_SAFE_WEIGHT_MIN DEFAULT_SAFE_WEIGHT_MAX
       DEFAULT_WEIGHT_QUANTIZATION_STEP 18273
       ltac:(vm_compute; discriminate) ltac:(reflexivity))))))).
Defined.

(** C3. Under the default configuration the tolerance limits handed to
    the data processor are [740000, 760000]; a final weight of 778273 is
    above them: the test loop labels the episode "overweight", the
    classification rule makes it an Overflow by 778273 - 760000 = 18273,
    and its reward is -370 times 18273 over the scaling divisor, which is
    strictly negative (-6761010 when nothing is scaled). *)
Theorem default_band_overflow_scenario
    (self : Tester) (scale : positive) (safeScore : Z -> Q) :
  real_tolerance_limits DEFAULT_WEIGHT_QUANTIZATION_STEP = [740000; 760000]
  /\ termination_type (with_default_config self) 778273 = "overweight"
  /\ classify 778273 DEFAULT_SAFE_WEIGHT_MIN DEFAULT_SAFE_WEIGHT_MAX
       DEFAULT_WEIGHT_QUANTIZATION_STEP
     = {| terminationClass := Overflow;
          overflowAmount := 778273 - 760000;
          underflowAmount := 0 |}
  /\ 778273 - 760000 = 18273
  /\ (default_reward scale safeScore 778273
        DEFAULT_SAFE_WEIGHT_MIN DEFAULT_SAFE_WEIGHT_MAX
        DEFAULT_WEIGHT_QUANTIZATION_STEP
      == DEFAULT_OVERFLOW_PENALTY_CONSTANT * (18273 # scale))%Q
  /\ (DEFAULT_OVERFLOW_PENALTY_CONSTANT == -370)%Q
  /\ (default_reward scale safeScore 778273
        DEFAULT_SAFE_WEIGHT_MIN DEFAULT_SAFE_WEIGHT_MAX
        DEFAULT_WEIGHT_QUANTIZATION_STEP < 0)%Q
  /\ (default_reward 1 safeScore 778273
        DEFAULT_SAFE_WEIGHT_MIN DEFAULT_SAFE_WEIGHT_MAX
        DEFAULT_WEIGHT_QUANTIZATION_STEP == -6761010)%Q.
Proof.
  repeat split; try reflexivity.
Qed.

End RewardFacts.

(* ================================================================== *)
(** ** Properties: the experienced switching point *)
(* ================================================================== *)

Module SwitchPointFacts.
Import Py RealWorldTester Samples.

Lemma index_head (x y : Z) (l : list Z) :
  index x (y :: l) = Some 0%nat -> y = x.
Proof.
  simpl. destruct (Z.eqb_spec y x) as [-> | _]; [reflexivity |].
  destruct (index x l); simpl; discriminate.
Qed.

Lemma index_tail (x y : Z) (l : list Z) (i : nat) :
  index x (y :: l) = Some (S i) -> y <> x /\ index x l = Some i.
Proof.
  simpl. destruct (Z.eqb_spec y x) as [-> | Hne]; [discriminate |].
  destruct (index x l) as [j |]; simpl; [| discriminate].
  intros [= ->]. split; [assumption | reflexivity].
Qed.

Lemma getitem_nonneg (l : list Z) (i : nat) :
  getitem l (Z.of_nat (S i) - 1) = l !! i.
Proof.
  unfold getitem.
  destruct (Z.ltb_spec (Z.of_nat (S i) - 1) 0) as [Hneg | _]; [lia |].
  f_equal. lia.
Qed.

Lemma weight_preceding_marker_cons (y m : Z) (r : list Z) :
  Design.weight_preceding_marker (y :: m :: r) =
    if y =? -1 then None
    else if m =? -1 then Some y
    else Design.weight_preceding_marker (m :: r).
Proof. reflexivity. Qed.

Lemma weight_preceding_marker_at (l : list Z) :
  forall i : nat,
    index (-1) l = Some (S i) ->
    exists w, l !! i = Some w /\ Design.weight_preceding_marker l = Some w.
Proof.
  induction l as [| y l IH]; intros i Hidx; [discriminate |].
  apply index_tail in Hidx as [Hy Hidx].
  destruct l as [| m r]; [discriminate |].
  rewrite weight_preceding_marker_cons.
  destruct (Z.eqb_spec y (-1)) as [Heq | _]; [contradiction |].
  destruct i as [| i].
  - apply index_head in Hidx as ->. exists y. split; reflexivity.
  - destruct (Z.eqb_spec m (-1)) as [Hm | _].
    + apply index_tail in Hidx as [Hm' _]. contradiction.
    + destruct (IH i Hidx) as (w & Hw & Hpre).
      exists w. split; [exact Hw | exact Hpre].
Qed.

(** C4, as the code has it.  When the first marker of the weight
    sequence is at a position [i+1] (so that a sample precedes it), the
    experienced switching point is the weight at position [i], which is
    the weight of the sample immediately preceding the marker. *)
Theorem current_switch_point_precedes_marker (ed : EpisodeData) (i : nat) :
  index (-1) (weight_sequence ed) = Some (S i) ->
  exists w,
    weight_sequence ed !! i = Some w
    /\ current_switch_point ed = Ok w
    /\ Design.weight_preceding_marker (weight_sequence ed) = Some w.
Proof.
  intros Hidx.
  destruct (weight_preceding_marker_at _ i Hidx) as (w & Hw & Hpre).
  exists w. repeat split; try assumption.
  unfold current_switch_point. rewrite Hidx, getitem_nonneg, Hw. reflexivity.
Qed.

Lemma current_switch_point_precedes_marker_example :
  index (-1) (weight_sequence (episode_of_weights [454306; 458265; -1; 466032]))
    = Some 2%nat
  /\ exists w,
       weight_sequence (episode_of_weights [454306; 458265; -1; 466032]) !! 1%nat
         = Some w
       /\ current_switch_point
            (episode_of_weights [454306; 458265; -1; 466032]) = Ok w
       /\ Design.weight_preceding_marker
            (weight_sequence (episode_of_weights [454306; 458265; -1; 466032]))
          = Some w.
Proof.
  split; [reflexivity |].
  exact (current_switch_point_precedes_marker
           (episode_of_weights [454306; 458265; -1; 466032]) 1 eq_refl).
Defined.

(** C4, as stated, fails when the marker is the first element of the
    sequence: no sample precedes it, and [ws[0 - 1]] is the last element
    of the list, here a sample that comes after the marker. *)
Lemma current_switch_point_marker_first :
  index (-1) (weight_sequence (episode_of_weights [-1; 7; 9])) = Some 0%nat
  /\ current_switch_point (episode_of_weights [-1; 7; 9]) = Ok 9
  /\ Design.weight_preceding_marker (weight_sequence (episode_of_weights [-1; 7; 9]))
     = None.
Proof.
  repeat split.
Qed.

Lemma last_default (l : list Z) :
  forall a x y : Z, List.last (a :: l) x = List.last (a :: l) y.
Proof.
  induction l as [| b l IH]; intros a x y; [reflexivity |].
  change (List.last (b :: l) x = List.last (b :: l) y). apply IH.
Qed.

Lemma lookup_length (l : list Z) :
  forall x : Z, (x :: l) !! length l = Some (List.last l x).
Proof.
  induction l as [| y l IH]; intros x; [reflexivity |].
  change ((y :: l) !! length l = Some (List.last (y :: l) x)).
  rewrite IH. f_equal. destruct l as [| z l]; [reflexivity |].
  apply (last_default l z y x).
Qed.

(** [l[-1]] is the last element. *)
Lemma getitem_minus_one (x : Z) (l : list Z) :
  getitem (x :: l) (-1) = Some (List.last l x).
Proof.
  unfold getitem. change (-1 <? 0) with true. cbv iota.
  destruct (Z.ltb_spec (-1 + Z.of_nat (length (x :: l))) 0) as [H | _];
    [cbn [length] in H; lia |].
  replace (Z.to_nat (-1 + Z.of_nat (length (x :: l)))) with (length l)
    by (cbn [length]; lia).
  apply lookup_length.
Qed.

(** The same in general: a sequence that begins with the marker gives
    its last element. *)
Lemma current_switch_point_wraps (rest : list Z) :
  current_switch_point (episode_of_weights (-1 :: rest))
  = Ok (List.last rest (-1)).
Proof.
  unfold current_switch_point; cbv zeta.
  change (weight_sequence (episode_of_weights (-1 :: rest))) with (-1 :: rest).
  change (index (-1) (-1 :: rest)) with (Some 0%nat); cbv iota.
  change (Z.of_nat 0 - 1) with (-1).
  rewrite getitem_minus_one. reflexivity.
Qed.

(** A sequence without marker: [index] raises. *)
Lemma current_switch_point_no_marker (ed : EpisodeData) :
  index (-1) (weight_sequence ed) = None ->
  current_switch_point ed = Raise ValueError.
Proof.
  intros H. unfold current_switch_point. rewrite H. reflexivity.
Qed.

End SwitchPointFacts.

(* ================================================================== *)
(** ** Properties: the colour of the "Result" row *)
(* ================================================================== *)

Module ReportFacts.
Import RealWorldTester FileHandler.

(** The three labels that [run_agent_testing] gives out. *)
Lemma termination_type_labels (self : Tester) (final_weight : Z) :
  termination_type self final_weight = "underweight"
  \/ termination_type self final_weight = "overweight"
  \/ termination_type self final_weight = "safe".
Proof.
  unfold termination_type.
  destruct (final_weight <? safe_weight_min self * quantization_step self);
    [left; reflexivity |].
  destruct (safe_weight_max self * quantization_step self <? final_weight);
    [right; left | right; right]; reflexivity.
Qed.

(** What the dictionary of fills says for its own three keys. *)
Lemma termination_fill_table :
  termination_fill "Normal" = green_fill
  /\ termination_fill "Underflow" = yellow_fill
  /\ termination_fill "Overflow" = red_fill.
Proof. repeat split. Qed.

(** C6 on the code.  The report writer looks the label up under the
    keys "Normal", "Underflow" and "Overflow", and the test loop writes
    the labels "safe", "underweight" and "overweight": no record finds its
    key, and every "Result" row gets the default fill, green.  So the
    episode of final weight 778273 under the default band, an overflow,
    is filled green and not red. *)
Theorem result_fill_is_always_green
    (self : Tester) (episode_num : Z) (episode_data : EpisodeData)
    (current_switch_point : Z)
    (model_selected_next_switch_point next_switch_point : Q)
    (exploration_flag : bool) (q_table : list (Q * Q)) :
  result_fill
    (episode_info self episode_num episode_data current_switch_point
       model_selected_next_switch_point next_switch_point
       exploration_flag q_table) = green_fill
  /\ termination_type (with_default_config self) 778273 = "overweight"
  /\ termination_fill "overweight" = green_fill
  /\ termination_fill "underweight" = green_fill
  /\ green_fill <> red_fill
  /\ green_fill <> yellow_fill.
Proof.
  split.
  - unfold result_fill, episode_info; cbv zeta.
    cbn [info_termination_type].
    destruct (termination_type_labels self (final_weight episode_data))
      as [-> | [-> | ->]]; reflexivity.
  - repeat split; discriminate.
Qed.

End ReportFacts.

(* ================================================================== *)
(** ** Properties: the wait loop and the session statistics *)
(* ================================================================== *)

Module EpisodeFacts.
Import Py RealWorldTester Samples Stats.

Lemma session_stats_init_counters : session_stats_init = stats_of zero_counters.
Proof. reflexivity. Qed.

Lemma incr_total (c : Counters) :
  incr_item "total_episodes" (stats_of c) =
    (Ok tt, stats_of (bump "total_episodes" c)).
Proof. reflexivity. Qed.

Lemma incr_successful (c : Counters) :
  incr_item "successful_episodes" (stats_of c) =
    (Ok tt, stats_of (bump "successful_episodes" c)).
Proof. reflexivity. Qed.

Lemma incr_failed (c : Counters) :
  incr_item "failed_episodes" (stats_of c) =
    (Ok tt, stats_of (bump "failed_episodes" c)).
Proof. reflexivity. Qed.

Lemma incr_safe (c : Counters) :
  incr_item "safe_episodes" (stats_of c) =
    (Ok tt, stats_of (bump "safe_episodes" c)).
Proof. reflexivity. Qed.

Lemma incr_overflow (c : Counters) :
  incr_item "overflow_episodes" (stats_of c) =
    (Ok tt, stats_of (bump "overflow_episodes" c)).
Proof. reflexivity. Qed.

Lemma incr_underflow (c : Counters) :
  incr_item "underflow_episodes" (stats_of c) =
    (Ok tt, stats_of (bump "underflow_episodes" c)).
Proof. reflexivity. Qed.

Lemma update_session_stats_counters (episode_data : EpisodeData) (c : Counters) :
  _update_session_stats episode_data (stats_of c) =
    (Ok tt, stats_of (bump_success episode_data c)).
Proof.
  unfold _update_session_stats, bump_success, class_key, bind.
  rewrite incr_total, incr_successful.
  destruct (0 <? overflow_amount episode_data); [reflexivity |].
  destruct (0 <? underflow_amount episode_data); reflexivity.
Qed.

(** Saving leaves the statistics alone, and lets through only what is
    not an [Exception]. *)
Lemma save_episode_to_database_result (self : Tester)
    (episode_data : EpisodeData) (stats : gmap string Z) :
  _save_episode_to_database self episode_data stats = (Ok tt, stats)
  \/ exists e, is_Exception e = false
       /\ _save_episode_to_database self episode_data stats = (Raise e, stats).
Proof.
  unfold _save_episode_to_database, try_except_Exception.
  destruct (db_save self episode_data) as [e |]; [| left; reflexivity].
  unfold raise. destruct (is_Exception e) eqn:He; [left; reflexivity |].
  right. exists e. split; [exact He | reflexivity].
Qed.

(** *** The wait loop *)

(** The loop never writes to the statistics. *)
Lemma await_raw_data_stats (rhs : nat -> option string) (fuel : nat) :
  forall (k : nat) (stats : gmap string Z),
    snd (await_raw_data rhs k fuel stats) = stats.
Proof.
  induction fuel as [| fuel IH]; intros k stats; [reflexivity |].
  cbn [await_raw_data].
  destruct (truthy (rhs k)); cbn [negb]; [reflexivity | apply IH].
Qed.

(** A pass that finds data leaves the loop with it. *)
Lemma await_raw_data_break (rhs : nat -> option string) (k fuel : nat)
    (stats : gmap string Z) :
  truthy (rhs k) = true ->
  await_raw_data rhs k (S fuel) stats = (Ok (rhs k), stats).
Proof.
  intros H. cbn [await_raw_data]. rewrite H. reflexivity.
Qed.

Lemma truthy_RAW_DATA : truthy (Some RAW_DATA) = true.
Proof. reflexivity. Qed.

Lemma await_literal (k fuel : nat) (stats : gmap string Z) :
  await_raw_data (fun _ => Some RAW_DATA) k (S fuel) stats
  = (Ok (Some RAW_DATA), stats).
Proof.
  apply (await_raw_data_break (fun _ => Some RAW_DATA)). exact truthy_RAW_DATA.
Qed.

Lemma run_episode_unfold (self : Tester) (fuel : nat) (stats : gmap string Z) :
  run_episode self (S fuel) stats = process_raw_data self (Some RAW_DATA) stats.
Proof.
  unfold run_episode, run_episode_with, bind. rewrite await_literal. reflexivity.
Qed.

(** The two failures after the loop. *)
Lemma incr_item_present (k : string) (stats : gmap string Z) (v : Z) :
  stats !! k = Some v ->
  incr_item k stats = (Ok tt, <[k := v + 1]> stats).
Proof. intros H. unfold incr_item. rewrite H. reflexivity. Qed.

Lemma process_raw_data_failure (self : Tester) (raw : string)
    (stats : gmap string Z) (v : Z) :
  stats !! "failed_episodes" = Some v ->
  builds_no_session self raw ->
  process_raw_data self (Some raw) stats
  = (Ok None, <["failed_episodes" := v + 1]> stats).
Proof.
  intros Hv Hfail. unfold process_raw_data, bind.
  destruct Hfail as [-> | (d & -> & ->)];
    rewrite (incr_item_present _ _ _ Hv); reflexivity.
Qed.

(** What follows the loop never leaves the caller waiting. *)
Lemma bind_returns {S A B} (m : M S A) (k : A -> M S B) (s : S) :
  fst (m s) <> Hang ->
  (forall (a : A) (s' : S), fst (k a s') <> Hang) ->
  fst (bind m k s) <> Hang.
Proof.
  unfold bind. intros Hm Hk.
  destruct (m s) as [[a | e |] s']; cbn in *;
    [apply Hk | discriminate | congruence].
Qed.

Lemma incr_item_returns (k : string) (stats : gmap string Z) :
  fst (incr_item k stats) <> Hang.
Proof. unfold incr_item. destruct (stats !! k); discriminate. Qed.

Lemma update_session_stats_returns (episode_data : EpisodeData)
    (stats : gmap string Z) :
  fst (_update_session_stats episode_data stats) <> Hang.
Proof.
  unfold _update_session_stats.
  apply bind_returns; [apply incr_item_returns | intros _ s1].
  apply bind_returns; [apply incr_item_returns | intros _ s2].
  destruct (0 <? overflow_amount episode_data);
    [| destruct (0 <? underflow_amount episode_data)];
    apply incr_item_returns.
Qed.

Lemma save_episode_to_database_returns (self : Tester)
    (episode_data : EpisodeData) (stats : gmap string Z) :
  fst (_save_episode_to_database self episode_data stats) <> Hang.
Proof.
  unfold _save_episode_to_database, try_except_Exception, raise, ret.
  destruct (db_save self episode_data) as [e |]; [| discriminate].
  destruct (is_Exception e); discriminate.
Qed.

Lemma process_raw_data_returns (self : Tester) (raw_data : option string)
    (stats : gmap string Z) :
  fst (process_raw_data self raw_data stats) <> Hang.
Proof.
  unfold process_raw_data.
  destruct raw_data as [raw |]; [| discriminate].
  destruct (parse_raw_data self raw) as [d |].
  2:{ apply bind_returns; [apply incr_item_returns | discriminate]. }
  destruct (create_filling_session self d) as [fs |].
  2:{ apply bind_returns; [apply incr_item_returns | discriminate]. }
  cbv zeta.
  apply bind_returns; [apply update_session_stats_returns | intros _ s1].
  apply bind_returns; [apply save_episode_to_database_returns | discriminate].
Qed.

(** An episode that was parsed and for which a session was built does
    not end in [None]. *)
Lemma bind_not_none {S A B} (m : M S A) (k : A -> M S (option B)) (s : S) :
  (forall (a : A) (s' : S), fst (k a s') <> Ok None) ->
  fst (bind m k s) <> Ok None.
Proof.
  unfold bind. intros Hk.
  destruct (m s) as [[a | e |] s']; cbn; [apply Hk | discriminate ..].
Qed.

Lemma process_raw_data_none (self : Tester) (raw : string)
    (stats : gmap string Z) :
  fst (process_raw_data self (Some raw) stats) = Ok None ->
  builds_no_session self raw.
Proof.
  unfold process_raw_data, builds_no_session.
  destruct (parse_raw_data self raw) as [d |]; [| left; reflexivity].
  destruct (create_filling_session self d) as [fs |] eqn:Hs.
  2:{ intros _. right. exists d. split; [reflexivity | exact Hs]. }
  cbv zeta. intros H. exfalso. revert H.
  apply bind_not_none. intros _ s1.
  apply bind_not_none. intros _ s2. discriminate.
Qed.



(** *** One episode *)

(** C5. The transcript that [run_episode] parses is the literal of line
    123: the wait loop returns it in its first pass, and the episode is
    what [process_raw_data] makes of it.  [udp_client] is never called:
    two testers that differ only in what their devices send run the same
    episode, with the same result and the same statistics. *)
Theorem run_episode_ignores_device
    (self : Tester) (device1 device2 : nat -> option string)
    (fuel : nat) (stats : gmap string Z) :
  await_raw_data (fun _ => Some RAW_DATA) 0 (S fuel) stats
    = (Ok (Some RAW_DATA), stats)
  /\ run_episode (with_udp_client device1 self) (S fuel) stats
     = process_raw_data self (Some RAW_DATA) stats
  /\ run_episode (with_udp_client device1 self) fuel stats
     = run_episode (with_udp_client device2 self) fuel stats.
Proof.
  split; [apply await_literal |].
  split; [rewrite run_episode_unfold |]; reflexivity.
Qed.

(** For contrast: with line 122 in the place of line 123 the episode
    does depend on the device. *)
Lemma run_episode_line_122_depends_on_device :
  run_episode_line_122
    (with_udp_client (fun _ => Some "1,1;") answering_tester) 1
    session_stats_init
  <> run_episode_line_122
       (with_udp_client (fun _ => Some "2,2;") answering_tester) 1
       session_stats_init.
Proof.
  intros H.
  apply (f_equal (fun r : res (option EpisodeData) * gmap string Z =>
                    match fst r with
                    | Ok (Some d) => raw_data d
                    | _ => ""
                    end)) in H.
  vm_compute in H. discriminate H.
Qed.

(** *** Failures and their counter *)

(** C1. Every episode that fails is counted once.  [run_episode] ends
    in [None] only when the transcript does not parse or no filling
    session can be built from it; it has then raised 'failed_episodes'
    by one and left every other counter as it was.  Both failures are
    counted that way.  A third failure, no data within the timeout, does
    not occur: the loop leaves in its first pass with the literal of
    line 123, and the call is never left waiting. *)
Theorem every_failed_episode_is_counted_once
    (self : Tester) (fuel : nat) (stats : gmap string Z) (v : Z) :
  stats !! "failed_episodes" = Some v ->
  fst (run_episode self (S fuel) stats) = Ok None ->
  builds_no_session self RAW_DATA
  /\ snd (run_episode self (S fuel) stats)
     = <["failed_episodes" := v + 1]> stats
  /\ incremented "failed_episodes" stats
       (snd (run_episode self (S fuel) stats))
  /\ (forall k : string,
        k <> "failed_episodes" ->
        snd (run_episode self (S fuel) stats) !! k = stats !! k)
  /\ (forall self' : Tester,
        builds_no_session self' RAW_DATA ->
        run_episode self' (S fuel) stats
        = (Ok None, <["failed_episodes" := v + 1]> stats))
  /\ (forall self' : Tester,
        fst (run_episode self' (S fuel) stats) <> Hang).
Proof.
  intros Hv Hnone.
  rewrite run_episode_unfold in Hnone.
  pose proof (process_raw_data_none self RAW_DATA stats Hnone) as Hfail.
  pose proof (process_raw_data_failure self RAW_DATA stats v Hv Hfail) as Hrun.
  rewrite run_episode_unfold, Hrun. cbn [snd].
  split; [exact Hfail |].
  split; [reflexivity |].
  split; [exists v; split; [exact Hv | reflexivity] |].
  split; [intros k Hk; apply lookup_insert_ne; congruence |].
  split.
  - intros self' Hfail'. rewrite run_episode_unfold.
    exact (process_raw_data_failure self' RAW_DATA stats v Hv Hfail').
  - intros self'. rewrite run_episode_unfold. apply process_raw_data_returns.
Qed.

Lemma every_failed_episode_is_counted_once_rejecting :
  session_stats_init !! "failed_episodes" = Some 0
  /\ fst (run_episode rejecting_tester 1 session_stats_init) = Ok None
  /\ snd (run_episode rejecting_tester 1 session_stats_init)
     = <["failed_episodes" := 0 + 1]> session_stats_init.
Proof.
  split; [reflexivity |].
  split; [reflexivity |].
  exact (proj1 (proj2
    (every_failed_episode_is_counted_once rejecting_tester 0
       session_stats_init 0 eq_refl eq_refl))).
Defined.

(** *** The statistics over a session *)

Lemma bump_success_consistent (d : EpisodeData) (c : Counters) :
  consistent c ->
  consistent (bump_success d c)
  /\ total (bump_success d c) = total c + 1
  /\ failed (bump_success d c) = failed c.
Proof.
  unfold consistent, bump_success, class_key. intros [Ht Hs].
  destruct (0 <? overflow_amount d);
    [| destruct (0 <? underflow_amount d)]; cbn; lia.
Qed.

Lemma bump_failed_consistent (c : Counters) :
  consistent c ->
  consistent (bump "failed_episodes" c)
  /\ total (bump "failed_episodes" c) = total c
  /\ failed (bump "failed_episodes" c) = failed c + 1.
Proof.
  unfold consistent. intros [Ht Hs]. cbn. lia.
Qed.

Lemma process_raw_data_counters (self : Tester) (raw : string) (c : Counters) :
  consistent c ->
  exists c' : Counters,
    snd (process_raw_data self (Some raw) (stats_of c)) = stats_of c'
    /\ episode_effect c c' (fst (process_raw_data self (Some raw) (stats_of c))).
Proof.
  intros Hc. unfold process_raw_data, episode_effect.
  destruct (parse_raw_data self raw) as [d |].
  2:{ exists (bump "failed_episodes" c). unfold bind. rewrite incr_failed.
      split; [reflexivity |].
      destruct (bump_failed_consistent c Hc) as (H1 & H2 & H3).
      unfold ret; cbn [fst]; auto. }
  destruct (create_filling_session self d) as [fs |].
  2:{ exists (bump "failed_episodes" c). unfold bind. rewrite incr_failed.
      split; [reflexivity |].
      destruct (bump_failed_consistent c Hc) as (H1 & H2 & H3).
      unfold ret; cbn [fst]; auto. }
  cbv zeta.
  set (d' := with_reward d _ fs).
  exists (bump_success d' c).
  destruct (bump_success_consistent d' c Hc) as (H1 & H2 & H3).
  unfold bind. rewrite update_session_stats_counters.
  destruct (save_episode_to_database_result self d' (stats_of (bump_success d' c)))
    as [-> | (e & He & ->)]; unfold ret; cbn [fst snd]; auto.
Qed.

Lemma run_episode_counters (self : Tester) (fuel : nat) (c : Counters) :
  consistent c ->
  exists c' : Counters,
    snd (run_episode self (S fuel) (stats_of c)) = stats_of c'
    /\ episode_effect c c' (fst (run_episode self (S fuel) (stats_of c))).
Proof.
  intros Hc. rewrite run_episode_unfold.
  apply process_raw_data_counters. exact Hc.
Qed.

(** The same over a session that starts from any consistent counters. *)
Lemma run_episodes_counters (fuel : nat) (selves : list Tester) :
  forall c : Counters,
    consistent c ->
    exists c' : Counters,
      snd (run_episodes selves (S fuel) (stats_of c)) = stats_of c'
      /\ consistent c'
      /\ match fst (run_episodes selves (S fuel) (stats_of c)) with
         | Ok rs =>
             length rs = length selves
             /\ total c' = total c + returned rs
             /\ failed c' = failed c + not_returned rs
         | Raise e => is_Exception e = false
         | Hang => False
         end.
Proof.
  induction selves as [| self rest IH]; intros c Hc.
  - exists c. cbn. repeat split; try apply Hc; lia.
  - cbn [run_episodes]. unfold bind.
    destruct (run_episode_counters self fuel c Hc) as (c1 & Hs1 & Hc1 & Hr1).
    destruct (run_episode self (S fuel) (stats_of c)) as [r1 s1].
    cbn [fst snd] in Hs1, Hr1. subst s1.
    destruct r1 as [o | e |]; [| | contradiction].
    2:{ exists c1. cbn [fst snd]. auto. }
    destruct (IH c1 Hc1) as (c2 & Hs2 & Hc2 & Hr2).
    destruct (run_episodes rest (S fuel) (stats_of c1)) as [r2 s2].
    cbn [fst snd] in Hs2, Hr2. subst s2.
    exists c2. destruct r2 as [rs | e |]; unfold ret; cbn [fst snd];
      [| auto | auto].
    destruct Hr2 as (Hlen & Htot & Hfail).
    split; [reflexivity |]. split; [exact Hc2 |].
    destruct o as [d |]; cbn [length returned not_returned]; lia.
Qed.

(** C9. From the counters of [__init__], all zero, any number of
    [run_episode] calls leaves 'total_episodes' equal to
    'successful_episodes' and 'successful_episodes' equal to the sum of
    'safe_episodes', 'overflow_episodes' and 'underflow_episodes'.  When
    every call returns, 'total_episodes' is the number of calls that
    returned an episode and 'failed_episodes' the number that returned
    [None]: a failed episode is counted there and nowhere else.  A call
    ends otherwise only on an exception from the database layer that is
    not an [Exception], and the equalities hold then too. *)
Theorem session_stats_invariant (selves : list Tester) (fuel : nat) :
  exists c : Counters,
    snd (run_episodes selves (S fuel) session_stats_init) = stats_of c
    /\ total c = successful c
    /\ successful c = safe c + overflow c + underflow c
    /\ match fst (run_episodes selves (S fuel) session_stats_init) with
       | Ok rs =>
           length rs = length selves
           /\ total c = returned rs
           /\ failed c = not_returned rs
       | Raise e => is_Exception e = false
       | Hang => False
       end.
Proof.
  rewrite session_stats_init_counters.
  destruct (run_episodes_counters fuel selves zero_counters)
    as (c & Hs & [Ht Hsum] & Hr); [split; reflexivity |].
  exists c. split; [exact Hs |]. split; [exact Ht |]. split; [exact Hsum |].
  exact Hr.
Qed.

(** *** Manual testing *)

Lemma manual_loop_raises (self : Tester) (fuel : nat)
    (switching_point : Q) (rest : list Q) (stats : gmap string Z) :
  manual_loop self fuel (switching_point :: rest) (stats, [])
  = (Raise TypeError, (stats, [])).
Proof. reflexivity. Qed.

(** The summary of a dictionary that holds the six counters. *)
Lemma print_session_summary_value (stats : gmap string Z)
    (t s f sa o u : Z) :
  stats !! "total_episodes" = Some t ->
  stats !! "successful_episodes" = Some s ->
  stats !! "failed_episodes" = Some f ->
  stats !! "safe_episodes" = Some sa ->
  stats !! "overflow_episodes" = Some o ->
  stats !! "underflow_episodes" = Some u ->
  _print_session_summary stats
  = Ok (if 0 <? s then Some (sa, s) else None).
Proof.
  intros Ht Hs Hf Hsa Ho Hu.
  unfold _print_session_summary, bind, read_counter.
  repeat progress (rewrite ?Ht, ?Hs, ?Hf, ?Hsa, ?Ho, ?Hu; cbv beta iota).
  destruct (0 <? s);
    repeat progress (rewrite ?Hsa, ?Hs; cbv beta iota); reflexivity.
Qed.

Lemma has_counters_lookup (stats : gmap string Z) :
  has_counters stats = true ->
  exists t s f sa o u : Z,
    stats !! "total_episodes" = Some t
    /\ stats !! "successful_episodes" = Some s
    /\ stats !! "failed_episodes" = Some f
    /\ stats !! "safe_episodes" = Some sa
    /\ stats !! "overflow_episodes" = Some o
    /\ stats !! "underflow_episodes" = Some u.
Proof.
  unfold has_counters, counter_keys. cbn [forallb]. intros H.
  repeat (apply andb_prop in H as [?H H]).
  destruct (stats !! "total_episodes") as [t |]; [| discriminate].
  destruct (stats !! "successful_episodes") as [s |]; [| discriminate].
  destruct (stats !! "failed_episodes") as [f |]; [| discriminate].
  destruct (stats !! "safe_episodes") as [sa |]; [| discriminate].
  destruct (stats !! "overflow_episodes") as [o |]; [| discriminate].
  destruct (stats !! "underflow_episodes") as [u |]; [| discriminate].
  exists t, s, f, sa, o, u. repeat split.
Qed.

Lemma print_session_summary_returns (stats : gmap string Z) :
  has_counters stats = true ->
  exists r, _print_session_summary stats = Ok r.
Proof.
  intros H.
  destruct (has_counters_lookup stats H)
    as (t & s & f & sa & o & u & Ht & Hs & Hf & Hsa & Ho & Hu).
  eexists.
  exact (print_session_summary_value stats t s f sa o u Ht Hs Hf Hsa Ho Hu).
Qed.

Lemma manual_loop_try (self : Tester) (fuel : nat)
    (switching_point : Q) (rest : list Q) (stats : gmap string Z) :
  try_finally
    (try_except_KeyboardInterrupt_Exception
       (manual_loop self fuel (switching_point :: rest))
       (ret tt)
       (fun _ => ret tt))
    (ret tt)
    (stats, [])
  = (Ok tt, (stats, [])).
Proof. reflexivity. Qed.

(** C10. For a non-empty list of switching points [run_manual_testing]
    returns the empty list.  When the devices connect, the first pass
    of the loop calls [run_episode], declared with [self] alone, with
    one argument: the call raises [TypeError] before the body runs, the
    handler for [Exception] takes it, the devices are disconnected, the
    summary of line 355 reads the six counters that [__init__] put into
    [session_stats], and the method returns [episodes] as it was
    created, with the statistics untouched.  When the devices do not
    connect it returns the empty list at once.  [session_stats] is any
    dictionary that holds the six counters, each below 2^63 in absolute
    value. *)
Theorem run_manual_testing_returns_no_episode
    (self : Tester) (fuel : nat) (switching_points : list Q)
    (stats : gmap string Z) :
  switching_points <> [] ->
  has_counters stats = true ->
  run_manual_testing self fuel switching_points stats = (Ok [], stats)
  /\ manual_loop self fuel switching_points (stats, [])
     = (Raise TypeError, (stats, []))
  /\ is_Exception TypeError = true.
Proof.
  intros Hne Hc.
  destruct switching_points as [| switching_point rest]; [contradiction |].
  split; [| split; reflexivity].
  destruct (print_session_summary_returns stats Hc) as [r Hr].
  unfold run_manual_testing.
  destruct (connect_devices self); [| reflexivity].
  cbv beta iota delta [negb].
  rewrite manual_loop_try. rewrite Hr. reflexivity.
Qed.

Lemma run_manual_testing_returns_no_episode_example :
  [45 # 1; 46 # 1]%Q <> []
  /\ has_counters session_stats_init = true
  /\ run_manual_testing answering_tester 1 [45 # 1; 46 # 1]%Q
       session_stats_init
     = (Ok [], session_stats_init).
Proof.
  split; [discriminate |]. split; [reflexivity |].
  exact (proj1 (run_manual_testing_returns_no_episode
                  answering_tester 1 [45 # 1; 46 # 1]%Q session_stats_init
                  ltac:(discriminate) eq_refl)).
Defined.

(** The summary is part of the call: on a dictionary without the
    counters, which [__init__] never builds, the same call would end in
    the [KeyError] of line 364. *)
Lemma run_manual_testing_needs_the_counters :
  run_manual_testing answering_tester 1 [45 # 1]%Q ∅ = (Raise KeyError, ∅).
Proof. reflexivity. Qed.

(** For contrast: the same call without the argument runs the episode. *)
Lemma run_episode_call_without_argument (self : Tester) (fuel : nat) :
  call_method 0 (@nil Q) (run_episode self fuel) = run_episode self fuel.
Proof. reflexivity. Qed.

End EpisodeFacts.

(* ================================================================== *)
(** ** Properties: the receive loops of tcp_client.py *)
(* ================================================================== *)

Module SocketFacts.
Import PyExc TcpClient.

(** Through a run of events that keeps it listening, the UDP loop only
    gathers the texts and moves the clock reading. *)
Lemma udp_receive_loop_listening (timeout : seconds) (pre : list udp_event) :
  forall (rest : list udp_event) (buffer : list string) (last : seconds),
    udp_listening timeout last pre = true ->
    udp_receive_loop timeout (pre ++ rest) buffer last
    = udp_receive_loop timeout rest (buffer ++ udp_messages pre)
        (udp_last_received last pre).
Proof.
  induction pre as [| ev pre IH]; intros rest buffer last Hpre.
  - cbn. rewrite app_nil_r. reflexivity.
  - destruct ev as [msg now | now | e]; cbn [udp_listening] in Hpre.
    + cbn [app udp_receive_loop]. rewrite IH by exact Hpre.
      cbn [udp_messages flat_map udp_last_received app].
      rewrite <- app_assoc. reflexivity.
    + apply andb_prop in Hpre as [Hsoon Hpre].
      apply negb_true_iff in Hsoon.
      cbn [app udp_receive_loop]. rewrite Hsoon.
      apply IH. exact Hpre.
    + discriminate.
Qed.

Lemma decode_ascii_text (data : string) :
  is_ascii data = true -> decode_ascii data = Some data.
Proof. intros H. unfold decode_ascii. rewrite H. reflexivity. Qed.

Lemma tcp_receive_loop_listening (timeout : seconds) (pre : list tcp_event) :
  forall (rest : list tcp_event) (buffer : list string) (last : seconds),
    tcp_listening timeout last pre = true ->
    tcp_receive_loop timeout (pre ++ rest) buffer last
    = tcp_receive_loop timeout rest (buffer ++ tcp_messages pre)
        (tcp_last_received last pre).
Proof.
  induction pre as [| ev pre IH]; intros rest buffer last Hpre.
  - cbn. rewrite app_nil_r. reflexivity.
  - destruct ev as [data now | now | e]; cbn [tcp_listening] in Hpre.
    + apply andb_prop in Hpre as [Hdata Hpre].
      apply andb_prop in Hdata as [Hdata Hascii].
      cbn [app tcp_receive_loop]. rewrite Hdata.
      rewrite (decode_ascii_text data Hascii).
      rewrite IH by exact Hpre.
      cbn [tcp_messages flat_map tcp_last_received app].
      rewrite <- app_assoc. reflexivity.
    + apply andb_prop in Hpre as [Hsoon Hpre].
      apply negb_true_iff in Hsoon.
      cbn [app tcp_receive_loop]. rewrite Hsoon.
      apply IH. exact Hpre.
    + discriminate.
Qed.

(** X1. [UDPClient.receive_data] on a connected client returns at the
    first [socket.timeout] at which the test of line 152 holds: the
    clock reading minus the reading at the last datagram (or at the
    start, when none has come), subtracted in binary64 as the interpreter
    does, is at least [timeout].  The result is the concatenation, in
    order of arrival, of the datagrams received until then, and [None]
    when there was none.  What comes after that timeout is not read. *)
Theorem udp_receive_data_returns_what_arrived
    (start timeout now : seconds) (pre post : list udp_event) :
  udp_listening timeout start pre = true ->
  udp_idle timeout now (udp_last_received start pre) = true ->
  UDPClient_receive_data true start timeout (pre ++ SocketTimeout now :: post)
  = Returns (match udp_messages pre with
             | [] => None
             | msgs => Some (String.concat "" msgs)
             end).
Proof.
  intros Hpre Hidle. unfold UDPClient_receive_data. cbn [negb].
  rewrite udp_receive_loop_listening by exact Hpre.
  cbn [udp_receive_loop app]. rewrite Hidle.
  destruct (udp_messages pre); reflexivity.
Qed.

Lemma udp_receive_data_returns_what_arrived_example :
  udp_listening 1 0
    [Datagram "1,1;" 0.5; SocketTimeout 1; Datagram "2,2;" 1.5] = true
  /\ udp_idle 1 3
       (udp_last_received 0
          [Datagram "1,1;" 0.5; SocketTimeout 1; Datagram "2,2;" 1.5])
     = true
  /\ UDPClient_receive_data true 0 1
       ([Datagram "1,1;" 0.5; SocketTimeout 1; Datagram "2,2;" 1.5]
        ++ SocketTimeout 3 :: [Datagram "3,3;" 4])
     = Returns (Some "1,1;2,2;").
Proof.
  split; [reflexivity |]. split; [reflexivity |].
  exact (udp_receive_data_returns_what_arrived 0%float 1%float 3%float
           [Datagram "1,1;" 0.5; SocketTimeout 1; Datagram "2,2;" 1.5]
           [Datagram "3,3;" 4] eq_refl eq_refl).
Defined.

(** The test is the rounded one: a call that starts 2^-60 seconds after
    the clock's zero and times out when the clock reads 1 has waited less
    than its timeout of 1 second, yet 1 - 2^-60 rounds to 1 and the call
    returns; the datagram that follows is not read. *)
Remark udp_idle_test_is_rounded :
  UDPClient_receive_data true 0x1p-60 1 [SocketTimeout 1; Datagram "1,1;" 2]
  = Returns None.
Proof. reflexivity. Qed.



(** X3. [TCPClient.receive_data] on a connected client that has
    received only chunks of ASCII bytes returns their text, concatenated
    in order ([None] when nothing), both when [recv] returns no data (the
    end of the transmission) and at a [socket.timeout] at which the test
    of line 84 holds: the clock reading minus the reading at the last
    chunk, subtracted in binary64, is greater than [self.timeout]. *)
Theorem tcp_receive_data_returns_what_arrived
    (start timeout now : seconds) (pre post : list tcp_event) :
  tcp_listening timeout start pre = true ->
  TCPClient_receive_data true start timeout (pre ++ Recv "" now :: post)
    = Returns (join_buffer (tcp_messages pre))
  /\ (tcp_idle timeout now (tcp_last_received start pre) = true ->
      TCPClient_receive_data true start timeout (pre ++ RecvTimeout now :: post)
      = Returns (join_buffer (tcp_messages pre))).
Proof.
  intros Hpre. unfold TCPClient_receive_data. cbn [negb].
  rewrite !tcp_receive_loop_listening by exact Hpre.
  split; [reflexivity |].
  intros Hidle. cbn [tcp_receive_loop app]. rewrite Hidle. reflexivity.
Qed.

Lemma tcp_receive_data_returns_what_arrived_example :
  tcp_listening 0 0 [Recv "1,1;" 1; Recv "2,2;" 2] = true
  /\ TCPClient_receive_data true 0 0
       ([Recv "1,1;" 1; Recv "2,2;" 2] ++ Recv "" 3 :: [])
     = Returns (Some "1,1;2,2;").
Proof.
  split; [reflexivity |].
  exact (proj1 (tcp_receive_data_returns_what_arrived 0%float 0%float 3%float
                  [Recv "1,1;" 1; Recv "2,2;" 2] [] eq_refl)).
Defined.

(** X4. [TCPClient.receive_data] throws away what it has received, and
    returns [None] although data has arrived, in two cases: when [recv]
    raises an exception other than [socket.timeout], and when a chunk
    holds a byte above 127, which [decode('ascii')] refuses.  The end of
    the transmission at the same point returns the data. *)
Theorem tcp_receive_data_failure_loses_data
    (start timeout : seconds) (pre post : list tcp_event) (e : Py.exn) :
  tcp_listening timeout start pre = true ->
  Py.is_Exception e = true ->
  tcp_messages pre <> [] ->
  TCPClient_receive_data true start timeout (pre ++ RecvFailure e :: post)
    = Returns None
  /\ (forall (data : string) (now : seconds),
        Py.truthy (Some data) = true ->
        is_ascii data = false ->
        TCPClient_receive_data true start timeout (pre ++ Recv data now :: post)
        = Returns None)
  /\ exists data : string,
       TCPClient_receive_data true start timeout (pre ++ Recv "" start :: post)
       = Returns (Some data).
Proof.
  intros Hpre He Hdata. unfold TCPClient_receive_data. cbn [negb].
  split; [| split].
  - rewrite tcp_receive_loop_listening by exact Hpre.
    cbn [tcp_receive_loop]. rewrite He. reflexivity.
  - intros data now Htruthy Hascii.
    rewrite tcp_receive_loop_listening by exact Hpre.
    cbn [tcp_receive_loop]. rewrite Htruthy.
    unfold decode_ascii. rewrite Hascii. reflexivity.
  - rewrite tcp_receive_loop_listening by exact Hpre.
    cbn [tcp_receive_loop Py.truthy app].
    destruct (tcp_messages pre) as [| m ms] eqn:Hm; [contradiction |].
    exists (String.concat "" (m :: ms)). reflexivity.
Qed.

Lemma tcp_receive_data_failure_loses_data_example :
  tcp_listening 0 0 [Recv "1,1;" 1; Recv "2,2;" 2] = true
  /\ Py.is_Exception Py.ValueError = true
  /\ TCPClient_receive_data true 0 0
       ([Recv "1,1;" 1; Recv "2,2;" 2] ++ RecvFailure Py.ValueError :: [])
     = Returns None
  /\ TCPClient_receive_data true 0 0
       ([Recv "1,1;" 1; Recv "2,2;" 2]
        ++ Recv (String (Ascii.ascii_of_N 233) "") 3 :: [])
     = Returns None.
Proof.
  split; [reflexivity |]. split; [reflexivity |].
  pose proof (tcp_receive_data_failure_loses_data 0%float 0%float
                [Recv "1,1;" 1; Recv "2,2;" 2] [] Py.ValueError
                eq_refl eq_refl ltac:(discriminate)) as H.
  split; [exact (proj1 H) |].
  exact (proj1 (proj2 H) (String (Ascii.ascii_of_N 233) "") 3%float
           eq_refl eq_refl).
Defined.

End SocketFacts.

(* ================================================================== *)
(** ** Properties: edges of the episode bookkeeping *)
(* ================================================================== *)

Module TesterEdgeFacts.
Import Py RealWorldTester Samples Stats Variants.

(** X5. The label that [run_agent_testing] gives a final weight: with
    [lo] and [hi] the scaled limits, it is "underweight" exactly below
    [lo], "safe" exactly on the closed interval from [lo] to [hi] (both
    limits count as safe), and "overweight" exactly above [hi] when not
    below [lo]; the test against [lo] comes first, so with limits in the
    wrong order a weight between them is "underweight". *)
Theorem termination_type_bounds (self : Tester) (final_weight : Z) :
  let lo := safe_weight_min self * quantization_step self in
  let hi := safe_weight_max self * quantization_step self in
  (termination_type self final_weight = "underweight" <-> final_weight < lo)
  /\ (termination_type self final_weight = "overweight"
      <-> lo <= final_weight /\ hi < final_weight)
  /\ (termination_type self final_weight = "safe"
      <-> lo <= final_weight <= hi).
Proof.
  cbv zeta. unfold termination_type.
  destruct (Z.ltb_spec final_weight
              (safe_weight_min self * quantization_step self)) as [Hlo | Hlo].
  - split; [| split]; split; intros H;
      try discriminate H; try lia; reflexivity.
  - destruct (Z.ltb_spec (safe_weight_max self * quantization_step self)
                final_weight) as [Hhi | Hhi];
      (split; [| split]); split; intros H;
      try discriminate H; try lia; reflexivity.
Qed.

Lemma class_key_cases (episode_data : EpisodeData) :
  class_key episode_data = "overflow_episodes"
  \/ class_key episode_data = "underflow_episodes"
  \/ class_key episode_data = "safe_episodes".
Proof.
  unfold class_key.
  destruct (0 <? overflow_amount episode_data); [left; reflexivity |].
  destruct (0 <? underflow_amount episode_data);
    [right; left | right; right]; reflexivity.
Qed.

Lemma update_session_stats_class (episode_data : EpisodeData) :
  _update_session_stats episode_data
  = (incr_item "total_episodes" ;;
     incr_item "successful_episodes" ;;
     incr_item (class_key episode_data)).
Proof.
  unfold _update_session_stats, class_key.
  destruct (0 <? overflow_amount episode_data); [reflexivity |].
  destruct (0 <? underflow_amount episode_data); reflexivity.
Qed.

Lemma lookup_after_two (stats : gmap string Z) (k : string) (t s : Z) :
  k <> "total_episodes" -> k <> "successful_episodes" ->
  (<["successful_episodes" := s]> (<["total_episodes" := t]> stats)) !! k
  = stats !! k.
Proof.
  intros H1 H2. rewrite !lookup_insert_ne by congruence. reflexivity.
Qed.

Lemma class_key_fresh (episode_data : EpisodeData) :
  class_key episode_data <> "total_episodes"
  /\ class_key episode_data <> "successful_episodes".
Proof.
  destruct (class_key_cases episode_data) as [-> | [-> | ->]];
    split; discriminate.
Qed.

(** X6. On statistics that hold the counters, [_update_session_stats]
    raises 'total_episodes', 'successful_episodes' and exactly one class
    counter by one each and nothing else.  Overflow comes first: an
    episode with both amounts positive counts as an overflow only, and
    an episode with neither amount positive (zero or negative) counts as
    safe. *)
Theorem update_session_stats_effect
    (episode_data : EpisodeData) (stats : gmap string Z) (t s c : Z) :
  stats !! "total_episodes" = Some t ->
  stats !! "successful_episodes" = Some s ->
  stats !! class_key episode_data = Some c ->
  _update_session_stats episode_data stats
    = (Ok tt,
       <[class_key episode_data := c + 1]>
         (<["successful_episodes" := s + 1]>
            (<["total_episodes" := t + 1]> stats)))
  /\ (0 < overflow_amount episode_data ->
      class_key episode_data = "overflow_episodes")
  /\ (overflow_amount episode_data <= 0 ->
      0 < underflow_amount episode_data ->
      class_key episode_data = "underflow_episodes")
  /\ (overflow_amount episode_data <= 0 ->
      underflow_amount episode_data <= 0 ->
      class_key episode_data = "safe_episodes").
Proof.
  intros Ht Hs Hc. split.
  - rewrite update_session_stats_class. unfold bind, incr_item.
    rewrite Ht. rewrite lookup_insert_ne by discriminate. rewrite Hs.
    destruct (class_key_fresh episode_data) as [H1 H2].
    rewrite lookup_after_two by assumption. rewrite Hc. reflexivity.
  - unfold class_key.
    destruct (Z.ltb_spec 0 (overflow_amount episode_data)) as [Ho | Ho];
      destruct (Z.ltb_spec 0 (underflow_amount episode_data)) as [Hu | Hu];
      repeat split; intros; try reflexivity; lia.
Qed.

Lemma update_session_stats_effect_both_positive :
  session_stats_init !! "total_episodes" = Some 0
  /\ session_stats_init !! "successful_episodes" = Some 0
  /\ _update_session_stats
       (with_reward
          {| raw_data := ""; weight_sequence := []; coarse_time := 0;
             fine_time := 0; total_time := 0; switching_point := 0;
             overflow_amount := 5; underflow_amount := 7; final_weight := 0;
             reward := None; filling_session := None |}
          0%Q {| FillingSession.episode_length := 0;
                 FillingSession.final_weight := 0 |})
       session_stats_init
     = (Ok tt,
        <["overflow_episodes" := 0 + 1]>
          (<["successful_episodes" := 0 + 1]>
             (<["total_episodes" := 0 + 1]> session_stats_init))).
Proof.
  split; [reflexivity |]. split; [reflexivity |].
  exact (proj1 (update_session_stats_effect
                  (with_reward
                     {| raw_data := ""; weight_sequence := []; coarse_time := 0;
                        fine_time := 0; total_time := 0; switching_point := 0;
                        overflow_amount := 5; underflow_amount := 7;
                        final_weight := 0; reward := None;
                        filling_session := None |}
                     0%Q {| FillingSession.episode_length := 0;
                            FillingSession.final_weight := 0 |})
                  session_stats_init 0 0 0 eq_refl eq_refl eq_refl)).
Defined.

(** X7. [_update_session_stats] is not all-or-nothing.  When the class
    counter of the episode is missing from the dictionary, [KeyError] is
    raised after 'total_episodes' and 'successful_episodes' have been
    raised: the dictionary is left with the two increments and no class
    counted.  When 'total_episodes' itself is missing, the error comes
    before any change. *)
Theorem update_session_stats_missing_key
    (episode_data : EpisodeData) (stats : gmap string Z) (t s : Z) :
  stats !! "successful_episodes" = Some s ->
  (stats !! "total_episodes" = Some t ->
   stats !! class_key episode_data = None ->
   _update_session_stats episode_data stats
   = (Raise KeyError,
      <["successful_episodes" := s + 1]>
        (<["total_episodes" := t + 1]> stats)))
  /\ (stats !! "total_episodes" = None ->
      _update_session_stats episode_data stats = (Raise KeyError, stats)).
Proof.
  intros Hs. rewrite update_session_stats_class. unfold bind, incr_item.
  split.
  - intros Ht Hc. rewrite Ht. rewrite lookup_insert_ne by discriminate.
    rewrite Hs. destruct (class_key_fresh episode_data) as [H1 H2].
    rewrite lookup_after_two by assumption. rewrite Hc. reflexivity.
  - intros Ht. rewrite Ht. reflexivity.
Qed.

Lemma update_session_stats_missing_key_example :
  (delete "safe_episodes" session_stats_init) !! "successful_episodes" = Some 0
  /\ _update_session_stats (episode_of_weights [])
       (delete "safe_episodes" session_stats_init)
     = (Raise KeyError,
        <["successful_episodes" := 0 + 1]>
          (<["total_episodes" := 0 + 1]>
             (delete "safe_episodes" session_stats_init))).
Proof.
  split; [reflexivity |].
  exact (proj1 (update_session_stats_missing_key (episode_of_weights [])
                  (delete "safe_episodes" session_stats_init) 0 0 eq_refl)
           eq_refl eq_refl).
Defined.

(** What [run_episode] does once the transcript is parsed and the
    session built, by what the database raises. *)
Lemma process_raw_data_success (self : Tester) (raw : string)
    (d : EpisodeData) (fs : FillingSession.t) (stats : gmap string Z) :
  parse_raw_data self raw = Some d ->
  create_filling_session self d = Some fs ->
  process_raw_data self (Some raw) stats
  = match _update_session_stats (completed self d fs) stats with
    | (Ok _, stats') =>
        match db_save self (completed self d fs) with
        | Some e =>
            if is_Exception e then (Ok (Some (completed self d fs)), stats')
            else (Raise e, stats')
        | None => (Ok (Some (completed self d fs)), stats')
        end
    | (Raise e, stats') => (Raise e, stats')
    | (Hang, stats') => (Hang, stats')
    end.
Proof.
  intros Hp Hc. unfold process_raw_data. rewrite Hp, Hc. cbv zeta.
  fold (completed self d fs). unfold bind.
  destruct (_update_session_stats (completed self d fs) stats)
    as [[[] | e |] stats']; try reflexivity.
  unfold _save_episode_to_database, try_except_Exception.
  destruct (db_save self (completed self d fs)) as [e |]; [| reflexivity].
  unfold raise. destruct (is_Exception e); reflexivity.
Qed.

(** X8. A failure of the database never shows in an episode: whatever
    exceptions deriving from [Exception] the database calls raise,
    [run_episode] returns the same result and leaves the same statistics
    as over a database that works. *)
Theorem run_episode_survives_database_errors
    (self : Tester) (db : EpisodeData -> option exn) (fuel : nat)
    (stats : gmap string Z) :
  (forall (d : EpisodeData) (e : exn), db d = Some e -> is_Exception e = true) ->
  run_episode (with_db_save db self) fuel stats
  = run_episode (with_db_save (fun _ => None) self) fuel stats.
Proof.
  intros Hdb. destruct fuel as [| fuel]; [reflexivity |].
  rewrite !EpisodeFacts.run_episode_unfold.
  destruct (parse_raw_data self RAW_DATA) as [d |] eqn:Hp;
    [| unfold process_raw_data; cbn [parse_raw_data with_db_save];
       rewrite Hp; reflexivity].
  destruct (create_filling_session self d) as [fs |] eqn:Hc;
    [| unfold process_raw_data;
       cbn [parse_raw_data create_filling_session with_db_save];
       rewrite Hp, Hc; reflexivity].
  rewrite (process_raw_data_success (with_db_save db self) RAW_DATA d fs)
    by assumption.
  rewrite (process_raw_data_success (with_db_save (fun _ => None) self)
             RAW_DATA d fs) by assumption.
  change (completed (with_db_save db self) d fs) with (completed self d fs).
  change (completed (with_db_save (fun _ => None) self) d fs)
    with (completed self d fs).
  cbn [db_save with_db_save].
  destruct (_update_session_stats (completed self d fs) stats)
    as [[[] | e |] stats']; try reflexivity.
  destruct (db (completed self d fs)) as [e |] eqn:He; [| reflexivity].
  rewrite (Hdb _ _ He). reflexivity.
Qed.

Lemma run_episode_survives_database_errors_example :
  run_episode (with_db_save (fun _ => Some ValueError) answering_tester) 1
    session_stats_init
  = run_episode (with_db_save (fun _ => None) answering_tester) 1
      session_stats_init.
Proof.
  exact (run_episode_survives_database_errors answering_tester
           (fun _ => Some ValueError) 1 session_stats_init
           (fun d e H =>
              match H in (_ = o)
                    return (match o with
                            | Some e' => is_Exception e' = true
                            | None => True
                            end)
              with eq_refl => eq_refl end)).
Defined.

(** X9. When the literal parses to [d] and the session [fs] is built from
    it, [run_episode] returns [d] with two keys added and no other key
    changed: 'reward', the reward that [calculate_reward] gives for the
    length and the final weight of [fs] under the method "standard", and
    'filling_session', which is [fs]; and the counters go up as for one
    successful episode of the class of [d]. *)
Theorem run_episode_success
    (self : Tester) (fuel : nat) (c : Counters)
    (d : EpisodeData) (fs : FillingSession.t) :
  parse_raw_data self RAW_DATA = Some d ->
  create_filling_session self d = Some fs ->
  (forall e : exn,
     db_save self (completed self d fs) = Some e -> is_Exception e = true) ->
  run_episode self (S fuel) (stats_of c)
    = (Ok (Some (completed self d fs)),
       stats_of (bump_success (completed self d fs) c))
  /\ reward (completed self d fs)
     = Some (calculate_reward self (FillingSession.episode_length fs)
               (FillingSession.final_weight fs) "standard")
  /\ filling_session (completed self d fs) = Some fs
  /\ weight_sequence (completed self d fs) = weight_sequence d
  /\ final_weight (completed self d fs) = final_weight d
  /\ overflow_amount (completed self d fs) = overflow_amount d
  /\ underflow_amount (completed self d fs) = underflow_amount d
  /\ total_time (completed self d fs) = total_time d.
Proof.
  intros Hp Hc Hdb. split; [| repeat split].
  rewrite EpisodeFacts.run_episode_unfold.
  rewrite (process_raw_data_success self RAW_DATA d fs) by assumption.
  rewrite EpisodeFacts.update_session_stats_counters.
  destruct (db_save self (completed self d fs)) as [e |] eqn:He; [| reflexivity].
  rewrite (Hdb e eq_refl). reflexivity.
Qed.

Lemma run_episode_success_example :
  exists (d : EpisodeData) (fs : FillingSession.t),
    parse_raw_data answering_tester RAW_DATA = Some d
    /\ create_filling_session answering_tester d = Some fs
    /\ run_episode answering_tester 1 (stats_of zero_counters)
       = (Ok (Some (completed answering_tester d fs)),
          stats_of (bump_success (completed answering_tester d fs) zero_counters)).
Proof.
  eexists. eexists.
  split; [reflexivity |]. split; [reflexivity |].
  exact (proj1 (run_episode_success answering_tester 0 zero_counters _ _
                  eq_refl eq_refl
                  (fun e H => match H in (_ = o)
                                    return (match o with
                                            | Some e' => is_Exception e' = true
                                            | None => True
                                            end)
                              with eq_refl => I end))).
Defined.

(** X10. An interrupt during the database save comes after the
    bookkeeping: when a database call raises [KeyboardInterrupt],
    [run_episode] raises it and hands no episode to its caller, and the
    statistics already count the episode as total, successful and of its
    class. *)
Theorem run_episode_interrupted_in_save
    (self : Tester) (fuel : nat) (c : Counters)
    (d : EpisodeData) (fs : FillingSession.t) :
  parse_raw_data self RAW_DATA = Some d ->
  create_filling_session self d = Some fs ->
  db_save self (completed self d fs) = Some KeyboardInterrupt ->
  run_episode self (S fuel) (stats_of c)
    = (Raise KeyboardInterrupt, stats_of (bump_success (completed self d fs) c))
  /\ total (bump_success (completed self d fs) c) = total c + 1
  /\ successful (bump_success (completed self d fs) c) = successful c + 1.
Proof.
  intros Hp Hc Hdb. split.
  - rewrite EpisodeFacts.run_episode_unfold.
    rewrite (process_raw_data_success self RAW_DATA d fs) by assumption.
    rewrite EpisodeFacts.update_session_stats_counters. rewrite Hdb.
    reflexivity.
  - unfold bump_success.
    destruct (class_key_cases (completed self d fs)) as [-> | [-> | ->]];
      split; reflexivity.
Qed.

Lemma run_episode_interrupted_in_save_example :
  fst (run_episode (with_db_save (fun _ => Some KeyboardInterrupt) answering_tester)
         1 (stats_of zero_counters))
  = Raise KeyboardInterrupt.
Proof.
  exact (f_equal fst
           (proj1 (run_episode_interrupted_in_save
                     (with_db_save (fun _ => Some KeyboardInterrupt) answering_tester)
                     0 zero_counters _ _ eq_refl eq_refl eq_refl))).
Defined.

End TesterEdgeFacts.

(* ================================================================== *)
(** ** Properties: the report frames and the update of the agent *)
(* ================================================================== *)

Module AgentFacts.
Import PyExc RealWorldTester FileHandler ReportWriter AgentTesting.
Import Samples LoopInvariants.

Lemma header_rows : fold_left (fun row _ => row + 1) header_labels 2 = 8.
Proof. reflexivity. Qed.

Lemma write_blocks_frames (infos : list EpisodeInfo) :
  forall (start_col : Z) (v : option Z),
    map episode_col (fst (write_blocks start_col v infos))
      = map (fun i : nat => start_col + 2 * Z.of_nat i) (seq 0 (length infos))
    /\ map data_header_row (fst (write_blocks start_col v infos))
       = repeat 8 (length infos)
    /\ map title (fst (write_blocks start_col v infos))
       = map (fun info => "Episode " +:+ pretty (info_episode_num info + 1)) infos
    /\ snd (write_blocks start_col v infos)
       = match infos with [] => v | _ :: _ => Some 8 end.
Proof.
  induction infos as [| info rest IH]; intros start_col v.
  - repeat split.
  - cbn [write_blocks].
    destruct (IH (start_col + num_columns) (Some (data_header_row (write_block start_col info))))
      as (Hcol & Hrow & Htitle & Hlast).
    destruct (write_blocks (start_col + num_columns)
                (Some (data_header_row (write_block start_col info))) rest)
      as [bs last].
    cbn [fst snd] in *. cbn [map length seq repeat].
    repeat split.
    + f_equal; [unfold write_block; cbn; lia |].
      rewrite Hcol. rewrite <- seq_shift, map_map.
      apply map_ext. intros i. unfold num_columns. lia.
    + f_equal. exact Hrow.
    + f_equal. exact Htitle.
    + rewrite Hlast. destruct rest; reflexivity.
Qed.

(** X11. The frames of the Excel report.  For an empty list of records
    [write_qvalue_updates_to_excel] raises [UnboundLocalError] (line 161
    reads [data_header_row], which only the loop binds) and nothing is
    saved.  For a list that is not empty and a workbook that can be saved,
    there is one block per record, the block of the record at position
    [i] starts in column [2i + 1], the column headers of every block are
    in row 8, and the panes are frozen at "A9". *)
Theorem excel_report_frames
    (info : EpisodeInfo) (rest : list EpisodeInfo) (save : option cls) :
  write_qvalue_updates_to_excel [] save = Raises (Named "UnboundLocalError")
  /\ exists wb : Workbook,
       write_qvalue_updates_to_excel (info :: rest) None = Returns wb
       /\ length (blocks wb) = length (info :: rest)
       /\ map episode_col (blocks wb)
          = map (fun i : nat => 2 * Z.of_nat i + 1)
                (seq 0 (length (info :: rest)))
       /\ map data_header_row (blocks wb) = repeat 8 (length (info :: rest))
       /\ freeze_panes wb = "A9".
Proof.
  split; [reflexivity |].
  unfold write_qvalue_updates_to_excel. cbv zeta.
  destruct (write_blocks_frames (info :: rest) 1 None)
    as (Hcol & Hrow & Htitle & Hlast).
  destruct (write_blocks 1 None (info :: rest)) as [bs last].
  cbn [fst snd] in Hcol, Hrow, Htitle, Hlast. subst last.
  eexists. split; [reflexivity |]. cbn [blocks freeze_panes].
  split; [| split; [| split; [exact Hrow | reflexivity]]].
  - rewrite <- (length_map episode_col), Hcol, length_map, length_seq.
    reflexivity.
  - rewrite Hcol. apply map_ext. intros i. lia.
Qed.

Lemma try_update_swallowed {A} (body : M (list agent_call) A)
    (calls calls' : list agent_call) (c : cls) (a : A) :
  body calls = (Raises c, calls') ->
  is_Exception c = true ->
  try_except_Exception body (fun _ => ret a) calls = (Returns a, calls').
Proof.
  intros Hb Hc. unfold try_except_Exception. rewrite Hb, Hc. reflexivity.
Qed.

Lemma exploration_step (agent : Agent) (calls : list agent_call) :
  (if has_update_exploration_rate agent then
     call_agent UpdateExplorationRate (_update_exploration_rate agent)
   else ret tt) calls
  = (exploration_outcome agent, calls ++ exploration_calls agent).
Proof.
  unfold exploration_outcome, exploration_calls, call_agent, bind, modify,
    of_raised, ret, raise.
  destruct (has_update_exploration_rate agent);
    [destruct (_update_exploration_rate agent) |]; cbn;
    rewrite ?app_nil_r; reflexivity.
Qed.

(** X12. For an agent whose class is none of "QLearningAgent",
    "MonteCarloAgent", "TDAgent" and "StandardQLearningAgent",
    [_update_agent_with_episode] makes no learning call at all: the
    episode is not learned from, and no exception tells so.  The only
    call on the agent is the update of the exploration rate, when the
    agent has one, and the method ends as that call ends. *)
Theorem update_agent_skips_unknown_class
    (self : Tester) (agent : Agent)
    (filling_session : option FillingSession.t) (switching_point : Z) :
  existsb (String.eqb (type_name agent))
    ["QLearningAgent"; "MonteCarloAgent"; "TDAgent"; "StandardQLearningAgent"]
    = false ->
  _update_agent_with_episode self agent filling_session switching_point []
  = (exploration_outcome agent, exploration_calls agent).
Proof.
  intros Hclass. cbn [existsb] in Hclass.
  apply orb_false_elim in Hclass as [Hq Hrest].
  unfold _update_agent_with_episode. cbv zeta. rewrite Hq.
  cbn [existsb]. rewrite Hrest.
  unfold bind at 1. unfold try_except_Exception, ret.
  apply exploration_step.
Qed.

Lemma update_agent_skips_unknown_class_example :
  _update_agent_with_episode answering_tester (answering_agent "SarsaAgent")
    None 740000 []
  = (Returns tt, [UpdateExplorationRate]).
Proof.
  exact (update_agent_skips_unknown_class answering_tester
           (answering_agent "SarsaAgent") None 740000 eq_refl).
Defined.

(** X13. For a "QLearningAgent", [_update_agent_with_episode] calls
    [_update_q_value] once, at the given switching point, with the reward
    that [calculate_reward] gives under the method "mab" for the length
    and the final weight of the filling session.  An exception of that
    call which derives from [Exception] is swallowed: the update of the
    exploration rate follows all the same, and the method ends as that
    update ends, whose exceptions are not caught. *)
Theorem update_agent_survives_learning_error
    (self : Tester) (agent : Agent) (fs : FillingSession.t)
    (switching_point : Z) :
  type_name agent = "QLearningAgent" ->
  (forall e : Py.exn,
     _update_q_value agent switching_point
       (calculate_reward self (FillingSession.episode_length fs)
          (FillingSession.final_weight fs) "mab") = Some e ->
     Py.is_Exception e = true) ->
  _update_agent_with_episode self agent (Some fs) switching_point []
  = (exploration_outcome agent,
     UpdateQValue switching_point
       (calculate_reward self (FillingSession.episode_length fs)
          (FillingSession.final_weight fs) "mab")
     :: exploration_calls agent).
Proof.
  intros Hclass Hexn.
  unfold _update_agent_with_episode. cbv zeta. rewrite Hclass.
  cbn [String.eqb Ascii.eqb Bool.eqb andb].
  set (r := calculate_reward self _ _ "mab") in *.
  unfold bind at 1.
  assert (Htry :
    try_except_Exception
      (call_agent (UpdateQValue switching_point r)
         (_update_q_value agent switching_point r))
      (fun _ => ret tt) []
    = (Returns tt, [UpdateQValue switching_point r])).
  { unfold try_except_Exception, call_agent, bind, modify, of_raised, ret, raise.
    cbn [app].
    destruct (_update_q_value agent switching_point r) as [e |] eqn:He;
      [| reflexivity].
    cbn [is_Exception]. rewrite (Hexn e eq_refl). reflexivity. }
  rewrite Htry. apply exploration_step.
Qed.

Lemma update_agent_survives_learning_error_example :
  _update_agent_with_episode answering_tester
    {| type_name := "QLearningAgent";
       _update_q_value := fun _ _ => Some Py.ValueError;
       train_episode := fun _ => None;
       has_update_exploration_rate := true;
       _update_exploration_rate := None;
       get_optimal_switch_point := Py.Ok 45%Q;
       select_action := fun q => Py.Ok (q, false);
       q_table := [] |}
    (Some {| FillingSession.episode_length := 2;
             FillingSession.final_weight := 750000 |})
    740000 []
  = (Returns tt, [UpdateQValue 740000 0%Q; UpdateExplorationRate]).
Proof.
  exact (update_agent_survives_learning_error answering_tester
           {| type_name := "QLearningAgent";
              _update_q_value := fun _ _ => Some Py.ValueError;
              train_episode := fun _ => None;
              has_update_exploration_rate := true;
              _update_exploration_rate := None;
              get_optimal_switch_point := Py.Ok 45%Q;
              select_action := fun q => Py.Ok (q, false);
              q_table := [] |}
           {| FillingSession.episode_length := 2;
              FillingSession.final_weight := 750000 |}
           740000 eq_refl
           (fun e H =>
              eq_sym (f_equal (fun o : option Py.exn =>
                                 match o with
                                 | Some e' => Py.is_Exception e'
                                 | None => true
                                 end) H))).
Defined.

End AgentFacts.

(* ================================================================== *)
(** ** Properties: the loop of run_agent_testing *)
(* ================================================================== *)

Module AgentLoopFacts.
Import PyExc RealWorldTester FileHandler ReportWriter AgentTesting.
Import Samples LoopInvariants.

Lemma numbered_snoc (eps : list EpisodeInfo) (info : EpisodeInfo) :
  numbered eps ->
  info_episode_num info = Z.of_nat (length eps) + 2 ->
  numbered (eps ++ [info]).
Proof.
  unfold numbered. intros Heps Hinfo.
  rewrite length_app, map_app, Heps. cbn [length map].
  rewrite Nat.add_1_r, seq_S, map_app. cbn [map Nat.add]. rewrite Hinfo.
  reflexivity.
Qed.

Lemma between_passes_initial (stats : gmap string Z) :
  between_passes (initial_state stats).
Proof.
  unfold between_passes, initial_state; cbn.
  repeat split; try reflexivity. intros H. contradiction.
Qed.

Lemma between_passes_stop (st : RunState) :
  between_passes st -> at_any_stop st.
Proof.
  intros (Hn & Hnum & Hsent & Hpaths & Hdisc).
  unfold at_any_stop. rewrite Hsent. repeat split; try assumption; lia.
Qed.

Lemma info_episode_num_episode_info (self : Tester) (n : Z)
    (ed : EpisodeData) (sp : Z) (ms next : Q) (flag : bool)
    (q : list (Q * Q)) :
  info_episode_num (episode_info self n ed sp ms next flag q) = n + 1.
Proof. reflexivity. Qed.

(** Case analysis on the innermost scrutinee of the goal. *)
Ltac pass_step :=
  match goal with
  | |- context [match ?x with _ => _ end] =>
      lazymatch x with
      | context [match _ with _ => _ end] => fail
      | _ => destruct x
      end
  end.

Ltac pass_leaf :=
  unfold between_passes, at_any_stop in *;
  cbn [fst snd episodes episode_num sent output_paths disconnected
       session_stats with_session_stats with_output_paths with_sent
       with_episode] in *;
  repeat match goal with
         | H : _ /\ _ |- _ => destruct H
         end;
  rewrite ?length_app in *; cbn [length] in *;
  repeat split; intros;
  try discriminate; try assumption;
  try (apply numbered_snoc;
       [assumption | rewrite info_episode_num_episode_info; lia]);
  try lia; auto.

(** One pass: when it returns, the locals are again as between two
    passes; however it ends, they are as at a stop. *)
Lemma agent_pass_invariant (p : Pass) (fuel : nat) (st : RunState) :
  between_passes st ->
  (fst (agent_pass p fuel st) = Returns tt ->
   between_passes (snd (agent_pass p fuel st)))
  /\ at_any_stop (snd (agent_pass p fuel st)).
Proof.
  intros Hst. pose proof (between_passes_stop st Hst) as Hstop.
  unfold agent_pass, bind, on_session_stats, of_res, of_raised, ret, raise,
    runs, modify.
  cbv zeta.
  repeat (pass_step; cbn [fst snd]).
  all: pass_leaf.
Qed.

Lemma agent_loop_invariant (passes : nat -> Pass) (fuel : nat) :
  forall (k : nat) (st : RunState),
    between_passes st ->
    fst (agent_loop passes k fuel st) <> Returns tt
    /\ at_any_stop (snd (agent_loop passes k fuel st)).
Proof.
  induction fuel as [| fuel IH]; intros k st Hst.
  - cbn. split; [discriminate | apply between_passes_stop; exact Hst].
  - cbn [agent_loop]. unfold bind.
    destruct (agent_pass_invariant (passes k) (S fuel) st Hst) as [Hret Hstop].
    destruct (agent_pass (passes k) (S fuel) st) as [[[] | c |] st1];
      cbn [fst snd] in *.
    + apply IH. apply Hret. reflexivity.
    + split; [discriminate | exact Hstop].
    + split; [discriminate | exact Hstop].
Qed.

(** Both handlers of [run_agent_testing] only log: after them the locals
    are those the loop left, and an exception has become a return. *)
Lemma handlers_after_loop (body : M RunState unit) (st : RunState) :
  snd (try_except_KeyboardInterrupt_Exception body (ret tt) (fun _ => ret tt) st)
    = snd (body st)
  /\ fst (try_except_KeyboardInterrupt_Exception body (ret tt)
            (fun _ => ret tt) st)
     = match fst (body st) with
       | Raises _ => Returns tt
       | r => r
       end.
Proof.
  unfold try_except_KeyboardInterrupt_Exception, ret.
  destruct (body st) as [[[] | [[] | name] |] st']; split; reflexivity.
Qed.

Lemma get_item_never_hangs {V} (k : string) (d : gmap string V) :
  get_item k d <> Py.Hang.
Proof. unfold get_item. destruct (d !! k); discriminate. Qed.

(** The [finally] block leaves the records and the sends as they are,
    and returns only records that are not empty, after disconnecting. *)
Lemma finally_block_result (save : option cls) (st : RunState) :
  episodes (snd (finally_block save st)) = episodes st
  /\ sent (snd (finally_block save st)) = sent st
  /\ (forall eps : list EpisodeInfo,
        fst (finally_block save st) = Returns eps ->
        eps <> [] /\ eps = episodes st
        /\ disconnected (snd (finally_block save st)) = true)
  /\ (episodes st = [] ->
      disconnected (snd (finally_block save st)) = disconnected st
      /\ exists c : cls, fst (finally_block save st) = Raises c).
Proof.
  unfold finally_block.
  destruct (output_paths st) as [paths |].
  2:{ cbn. repeat split; try discriminate. eexists; reflexivity. }
  destruct (get_item "excel_path" paths) as [path | e |] eqn:Hg.
  2:{ cbn. repeat split; try discriminate. eexists; reflexivity. }
  2:{ exfalso. exact (get_item_never_hangs _ _ Hg). }
  destruct (episodes st) as [| info rest] eqn:Heps.
  - cbn. rewrite Heps. repeat split; try discriminate. eexists; reflexivity.
  - destruct (AgentFacts.write_blocks_frames (info :: rest) 1 None)
      as (_ & _ & _ & Hlast).
    unfold write_qvalue_updates_to_excel. cbv zeta.
    destruct (write_blocks 1 None (info :: rest)) as [bs last].
    cbn [snd] in Hlast. subst last.
    destruct save as [c |].
    + cbn [fst snd]. rewrite Heps.
      split; [reflexivity |]. split; [reflexivity |].
      split; [intros eps Heq; discriminate Heq | intros Hnil; discriminate Hnil].
    + destruct (_print_session_summary (session_stats (with_disconnected st)))
        as [rate | e |];
        cbn [fst snd episodes sent disconnected with_disconnected];
        rewrite ?Heps;
        (split; [reflexivity |]; split; [reflexivity |];
         split; [| intros Hnil; discriminate Hnil]);
        intros eps Heq; try discriminate Heq.
      injection Heq as <-. repeat split. discriminate.
Qed.

(** The locals at the end of [run_agent_testing], however it ends. *)
Lemma run_agent_testing_state (self : Tester) (passes : nat -> Pass)
    (save : option cls) (fuel : nat) (stats : gmap string Z) :
  numbered (episodes (snd (run_agent_testing self passes save fuel stats)))
  /\ (length (episodes (snd (run_agent_testing self passes save fuel stats)))
      <= length (sent (snd (run_agent_testing self passes save fuel stats)))
      <= S (length (episodes (snd (run_agent_testing self passes save fuel stats)))))%nat.
Proof.
  unfold run_agent_testing. cbv zeta.
  destruct (connect_devices self); cbn [negb].
  2:{ cbn. split; [reflexivity | lia]. }
  destruct (agent_loop_invariant passes fuel 0 (initial_state stats)
              (between_passes_initial stats)) as [_ (Hnum & Hsent & _ & _)].
  destruct (handlers_after_loop (agent_loop passes 0 fuel)
              (initial_state stats)) as [Hst _].
  destruct (try_except_KeyboardInterrupt_Exception (agent_loop passes 0 fuel)
              (ret tt) (fun _ => ret tt) (initial_state stats)) as [r st'].
  cbn [snd] in Hst. subst st'.
  destruct (finally_block_result save
              (snd (agent_loop passes 0 fuel (initial_state stats))))
    as (Heps & Hs & _).
  destruct r as [[] | c |]; cbn [snd]; rewrite ?Heps, ?Hs;
    split; assumption.
Qed.

Lemma agent_loop_never_returns (passes : nat -> Pass) (fuel : nat) :
  forall (k : nat) (st : RunState),
    fst (agent_loop passes k fuel st) <> Returns tt.
Proof.
  induction fuel as [| fuel IH]; intros k st; [discriminate |].
  cbn [agent_loop]. unfold bind.
  destruct (agent_pass (passes k) (S fuel) st) as [[[] | c |] st1];
    [apply IH | discriminate | discriminate].
Qed.

(** X14. The loop of [run_agent_testing] has no exit of its own: no
    number of episodes ends it.  Once the devices are connected, the
    method returns a list only after some call inside the loop has raised
    an exception ([KeyboardInterrupt] included), which a handler has
    logged. *)
Theorem run_agent_testing_returns_only_after_exception
    (self : Tester) (passes : nat -> Pass) (save : option cls) (fuel : nat)
    (stats : gmap string Z) (eps : list EpisodeInfo) :
  connect_devices self = true ->
  fst (run_agent_testing self passes save fuel stats) = Returns eps ->
  exists c : cls,
    fst (agent_loop passes 0 fuel (initial_state stats)) = Raises c.
Proof.
  intros Hconn Hret. unfold run_agent_testing in Hret. cbv zeta in Hret.
  rewrite Hconn in Hret. cbn [negb] in Hret.
  destruct (handlers_after_loop (agent_loop passes 0 fuel)
              (initial_state stats)) as [_ Hr].
  pose proof (agent_loop_never_returns passes fuel 0 (initial_state stats))
    as Hloop.
  destruct (try_except_KeyboardInterrupt_Exception (agent_loop passes 0 fuel)
              (ret tt) (fun _ => ret tt) (initial_state stats)) as [r st'].
  cbn [fst] in Hr.
  destruct (fst (agent_loop passes 0 fuel (initial_state stats)))
    as [[] | c |].
  - contradiction.
  - exists c. reflexivity.
  - subst r. discriminate Hret.
Qed.

Lemma run_agent_testing_returns_only_after_exception_example :
  exists c : cls,
    fst (agent_loop two_passes_then_interrupt 0 5
           (initial_state session_stats_init)) = Raises c.
Proof.
  refine (run_agent_testing_returns_only_after_exception
            answering_tester two_passes_then_interrupt None 5
            session_stats_init _ eq_refl _).
  vm_compute. reflexivity.
Defined.

(** X15. Once the devices are connected, [run_agent_testing] never
    returns the empty list.  When the loop stops with no episode
    recorded, the [finally] block raises (the path of the report is read
    from [output_paths], which only a recorded episode binds, and the
    report writer fails on an empty list): the exception leaves the
    method, and [disconnect_devices] is not reached.  A list that is
    returned is the list of the recorded episodes, returned after
    disconnecting. *)
Theorem run_agent_testing_never_returns_empty
    (self : Tester) (passes : nat -> Pass) (save : option cls) (fuel : nat)
    (stats : gmap string Z) :
  connect_devices self = true ->
  (forall eps : list EpisodeInfo,
     fst (run_agent_testing self passes save fuel stats) = Returns eps ->
     eps <> []
     /\ eps = episodes (snd (run_agent_testing self passes save fuel stats))
     /\ disconnected (snd (run_agent_testing self passes save fuel stats)) = true)
  /\ (episodes (snd (run_agent_testing self passes save fuel stats)) = [] ->
      disconnected (snd (run_agent_testing self passes save fuel stats)) = false
      /\ (fst (run_agent_testing self passes save fuel stats) = Runs
          \/ exists c : cls,
               fst (run_agent_testing self passes save fuel stats) = Raises c)).
Proof.
  intros Hconn. unfold run_agent_testing. cbv zeta.
  rewrite Hconn. cbn [negb].
  destruct (agent_loop_invariant passes fuel 0 (initial_state stats)
              (between_passes_initial stats)) as [_ (_ & _ & _ & Hdisc)].
  destruct (handlers_after_loop (agent_loop passes 0 fuel)
              (initial_state stats)) as [Hst _].
  destruct (try_except_KeyboardInterrupt_Exception (agent_loop passes 0 fuel)
              (ret tt) (fun _ => ret tt) (initial_state stats)) as [r st'].
  cbn [snd] in Hst. subst st'.
  set (st := snd (agent_loop passes 0 fuel (initial_state stats))) in *.
  destruct (finally_block_result save st) as (Heps & _ & Hret & Hnone).
  destruct r as [[] | c |]; cbn [fst snd].
  - split.
    + intros eps Heq. destruct (Hret eps Heq) as (H1 & H2 & H3).
      rewrite Heps. auto.
    + rewrite Heps. intros Hnil. destruct (Hnone Hnil) as [Hd [c Hc]].
      rewrite Hd. split; [exact Hdisc | right; exists c; exact Hc].
  - split.
    + intros eps Heq. destruct (Hret eps Heq) as (H1 & H2 & H3).
      rewrite Heps. auto.
    + rewrite Heps. intros Hnil. destruct (Hnone Hnil) as [Hd [c' Hc]].
      rewrite Hd. split; [exact Hdisc | right; exists c'; exact Hc].
  - split; [intros eps Heq; discriminate Heq |].
    intros _. split; [exact Hdisc | left; reflexivity].
Qed.

Lemma run_agent_testing_never_returns_empty_example :
  run_agent_testing markerless_tester (fun _ => answering_pass markerless_tester)
    None 5 session_stats_init
  = (Raises (Named "UnboundLocalError"),
     with_session_stats
       (snd (run_episode markerless_tester 5 session_stats_init))
       (initial_state session_stats_init))
  /\ disconnected
       (snd (run_agent_testing markerless_tester
               (fun _ => answering_pass markerless_tester)
               None 5 session_stats_init)) = false.
Proof.
  split; [vm_compute; reflexivity |].
  exact (proj1 (proj2 (run_agent_testing_never_returns_empty markerless_tester
                         (fun _ => answering_pass markerless_tester)
                         None 5 session_stats_init eq_refl)
                  ltac:(vm_compute; reflexivity))).
Defined.

(** X16. The episode numbers in the report are off by two.  The record
    at position [i] (from 0) of the list that [run_agent_testing] builds
    carries the number [i + 2], and the report writer adds one more: the
    blocks of the report are titled "Episode 3", "Episode 4", ... in
    order, whatever happens during the run. *)
Theorem report_titles_start_at_three
    (self : Tester) (passes : nat -> Pass) (save : option cls) (fuel : nat)
    (stats : gmap string Z) (start_col : Z) :
  map info_episode_num
      (episodes (snd (run_agent_testing self passes save fuel stats)))
    = map (fun i : nat => Z.of_nat i + 2)
          (seq 0 (length (episodes
                            (snd (run_agent_testing self passes save fuel stats)))))
  /\ map (fun info => title (write_block start_col info))
         (episodes (snd (run_agent_testing self passes save fuel stats)))
     = map (fun i : nat => "Episode " +:+ pretty (Z.of_nat i + 3))
           (seq 0 (length (episodes
                             (snd (run_agent_testing self passes save fuel stats))))).
Proof.
  destruct (run_agent_testing_state self passes save fuel stats) as [Hnum _].
  split; [exact Hnum |].
  unfold numbered in Hnum.
  change (fun info => title (write_block start_col info))
    with (fun info => "Episode " +:+ pretty (info_episode_num info + 1)).
  rewrite <- (map_map info_episode_num
                (fun n => "Episode " +:+ pretty (n + 1))).
  rewrite Hnum, map_map. apply map_ext. intros i.
  replace (Z.of_nat i + 2 + 1) with (Z.of_nat i + 3) by lia. reflexivity.
Qed.

Lemma report_titles_start_at_three_example :
  map (fun info => title (write_block 1 info))
      (episodes (snd (run_agent_testing answering_tester
                        two_passes_then_interrupt None 5 session_stats_init)))
  = ["Episode 3"; "Episode 4"].
Proof.
  rewrite (proj2 (report_titles_start_at_three answering_tester
                    two_passes_then_interrupt None 5 session_stats_init 1)).
  vm_compute. reflexivity.
Defined.

(** X17. A switching point is sent for every recorded episode and for
    nothing else but, at most, the episode during which the loop stopped:
    however [run_agent_testing] ends, the number of calls of
    [send_switching_point] is the number of recorded episodes or one
    more. *)
Theorem sends_follow_records
    (self : Tester) (passes : nat -> Pass) (save : option cls) (fuel : nat)
    (stats : gmap string Z) :
  (length (episodes (snd (run_agent_testing self passes save fuel stats)))
   <= length (sent (snd (run_agent_testing self passes save fuel stats)))
   <= S (length (episodes (snd (run_agent_testing self passes save fuel stats)))))%nat.
Proof.
  exact (proj2 (run_agent_testing_state self passes save fuel stats)).
Qed.

Lemma stats_of_add_failed (c : Stats.Counters) (n : Z) :
  Stats.stats_of (add_failed n (Stats.bump "failed_episodes" c))
  = Stats.stats_of (add_failed (1 + n) c).
Proof.
  unfold Stats.stats_of, add_failed. cbn.
  replace (Stats.failed c + 1 + n) with (Stats.failed c + (1 + n)) by lia.
  reflexivity.
Qed.

Lemma stats_of_add_failed_0 (c : Stats.Counters) :
  Stats.stats_of (add_failed 0 c) = Stats.stats_of c.
Proof.
  unfold Stats.stats_of, add_failed. cbn. rewrite Z.add_0_r. reflexivity.
Qed.

Lemma run_episode_failure (self : Tester) (fuel : nat) (c : Stats.Counters) :
  Stats.builds_no_session self RAW_DATA ->
  run_episode self (S fuel) (Stats.stats_of c)
  = (Py.Ok None, Stats.stats_of (Stats.bump "failed_episodes" c)).
Proof.
  intros Hfail. rewrite EpisodeFacts.run_episode_unfold.
  unfold process_raw_data, Py.bind.
  destruct Hfail as [-> | (d & -> & ->)];
    rewrite EpisodeFacts.incr_failed; reflexivity.
Qed.

Lemma agent_loop_spins (passes : nat -> Pass) (n : nat) :
  (forall k : nat, Stats.builds_no_session (pass_self (passes k)) RAW_DATA) ->
  forall (k : nat) (c : Stats.Counters) (st : RunState),
    agent_loop passes k n (with_session_stats (Stats.stats_of c) st)
    = (Runs,
       with_session_stats (Stats.stats_of (add_failed (Z.of_nat n) c)) st).
Proof.
  intros Hfail. induction n as [| n IH]; intros k c st.
  - cbn [agent_loop Z.of_nat]. unfold runs.
    rewrite stats_of_add_failed_0. reflexivity.
  - cbn [agent_loop]. unfold bind at 1.
    unfold agent_pass. cbv zeta. unfold bind at 1, on_session_stats.
    cbn [session_stats with_session_stats].
    change (Py.call_method 0 [] (run_episode (pass_self (passes k)) (S n)))
      with (run_episode (pass_self (passes k)) (S n)).
    rewrite (run_episode_failure _ n c (Hfail k)).
    unfold ret at 1.
    change (with_session_stats (Stats.stats_of (Stats.bump "failed_episodes" c))
              (with_session_stats (Stats.stats_of c) st))
      with (with_session_stats (Stats.stats_of (Stats.bump "failed_episodes" c)) st).
    rewrite IH. rewrite stats_of_add_failed.
    replace (1 + Z.of_nat n) with (Z.of_nat (S n)) by lia. reflexivity.
Qed.

(** X20. When the literal of [run_episode] does not parse, or no filling
    session can be built from it, [run_agent_testing] spins: every pass
    of the loop fails in the same way, nothing pauses or ends the loop,
    and after any number [n] of passes it is still running, with
    'failed_episodes' raised by [n], no episode recorded and no switching
    point sent. *)
Theorem run_agent_testing_spins_on_failures
    (self : Tester) (passes : nat -> Pass) (save : option cls) (n : nat)
    (c : Stats.Counters) :
  connect_devices self = true ->
  (forall k : nat, Stats.builds_no_session (pass_self (passes k)) RAW_DATA) ->
  run_agent_testing self passes save n (Stats.stats_of c)
    = (Runs,
       with_session_stats (Stats.stats_of (add_failed (Z.of_nat n) c))
         (initial_state (Stats.stats_of c)))
  /\ episodes (snd (run_agent_testing self passes save n (Stats.stats_of c))) = []
  /\ sent (snd (run_agent_testing self passes save n (Stats.stats_of c))) = [].
Proof.
  intros Hconn Hfail.
  assert (Hrun :
    run_agent_testing self passes save n (Stats.stats_of c)
    = (Runs,
       with_session_stats (Stats.stats_of (add_failed (Z.of_nat n) c))
         (initial_state (Stats.stats_of c)))).
  { unfold run_agent_testing. cbv zeta. rewrite Hconn. cbn [negb].
    unfold try_except_KeyboardInterrupt_Exception.
    change (initial_state (Stats.stats_of c))
      with (with_session_stats (Stats.stats_of c)
              (initial_state (Stats.stats_of c))) at 1.
    rewrite (agent_loop_spins passes n Hfail). reflexivity. }
  rewrite Hrun. repeat split.
Qed.

Lemma run_agent_testing_spins_on_failures_example :
  fst (run_agent_testing rejecting_tester
         (fun _ => answering_pass rejecting_tester) None 1000
         (Stats.stats_of Stats.zero_counters)) = Runs
  /\ session_stats
       (snd (run_agent_testing rejecting_tester
               (fun _ => answering_pass rejecting_tester) None 1000
               (Stats.stats_of Stats.zero_counters)))
     = Stats.stats_of (add_failed 1000 Stats.zero_counters).
Proof.
  pose proof (proj1 (run_agent_testing_spins_on_failures rejecting_tester
                       (fun _ => answering_pass rejecting_tester) None 1000
                       Stats.zero_counters eq_refl
                       (fun _ => or_introl eq_refl))) as H.
  rewrite H. split; reflexivity.
Defined.

End AgentLoopFacts.

(* ================================================================== *)
(** ** Properties: the session summary and the switching point *)
(* ================================================================== *)

Module SummaryFacts.
Import Py RealWorldTester Samples Stats Variants AgentTesting.

Lemma sound_bump_failed (c : Counters) :
  sound c -> sound (bump "failed_episodes" c).
Proof.
  unfold sound, consistent. cbn. intros H. lia.
Qed.

Lemma sound_bump_success (d : EpisodeData) (c : Counters) :
  sound c -> sound (bump_success d c).
Proof.
  unfold sound, consistent, bump_success. intros H.
  destruct (TesterEdgeFacts.class_key_cases d) as [-> | [-> | ->]]; cbn; lia.
Qed.

(** The counters after one episode, whatever its end. *)
Lemma run_episode_sound (self : Tester) (fuel : nat) (c : Counters) :
  sound c ->
  exists c' : Counters,
    snd (run_episode self (S fuel) (stats_of c)) = stats_of c' /\ sound c'.
Proof.
  intros Hc. rewrite EpisodeFacts.run_episode_unfold.
  destruct (parse_raw_data self RAW_DATA) as [d |] eqn:Hp.
  2:{ exists (bump "failed_episodes" c). split; [| apply sound_bump_failed, Hc].
      unfold process_raw_data. rewrite Hp. unfold bind.
      rewrite EpisodeFacts.incr_failed. reflexivity. }
  destruct (create_filling_session self d) as [fs |] eqn:Hs.
  2:{ exists (bump "failed_episodes" c). split; [| apply sound_bump_failed, Hc].
      unfold process_raw_data. rewrite Hp, Hs. unfold bind.
      rewrite EpisodeFacts.incr_failed. reflexivity. }
  exists (bump_success (completed self d fs) c).
  split; [| apply sound_bump_success, Hc].
  rewrite (TesterEdgeFacts.process_raw_data_success self RAW_DATA d fs)
    by assumption.
  rewrite EpisodeFacts.update_session_stats_counters.
  destruct (db_save self (completed self d fs)) as [e |]; [| reflexivity].
  destruct (is_Exception e); reflexivity.
Qed.

Lemma run_episodes_sound (fuel : nat) (selves : list Tester) :
  forall c : Counters,
    sound c ->
    exists c' : Counters,
      snd (run_episodes selves (S fuel) (stats_of c)) = stats_of c'
      /\ sound c'.
Proof.
  induction selves as [| self rest IH]; intros c Hc.
  - exists c. split; [reflexivity | exact Hc].
  - cbn [run_episodes]. unfold bind.
    destruct (run_episode_sound self fuel c Hc) as (c1 & Hs1 & Hc1).
    destruct (run_episode self (S fuel) (stats_of c)) as [r1 s1].
    cbn [snd] in Hs1. subst s1.
    destruct r1 as [o | e |]; [| exists c1; auto | exists c1; auto].
    destruct (IH c1 Hc1) as (c2 & Hs2 & Hc2).
    destruct (run_episodes rest (S fuel) (stats_of c1)) as [r2 s2].
    cbn [snd] in Hs2. subst s2.
    exists c2. destruct r2; auto.
Qed.

Lemma print_session_summary_counters (c : Counters) :
  _print_session_summary (stats_of c) = Ok (safe_rate_division c).
Proof.
  exact (EpisodeFacts.print_session_summary_value (stats_of c)
           (total c) (successful c) (failed c) (safe c) (overflow c)
           (underflow c) eq_refl eq_refl eq_refl eq_refl eq_refl eq_refl).
Qed.

(** X18. After any session that starts from the counters of [__init__],
    [_print_session_summary] finds all six counters (no [KeyError]) and
    never divides by zero: it divides exactly when there is a successful
    episode, and then it divides 'safe_episodes' by 'successful_episodes'
    with a numerator between zero and the denominator.  The statement is
    on the counters; the quotient, a floating-point number that is only
    logged, is not part of it. *)
Theorem session_summary_rate (selves : list Tester) (fuel : nat) :
  exists c : Counters,
    snd (run_episodes selves (S fuel) session_stats_init) = stats_of c
    /\ _print_session_summary
         (snd (run_episodes selves (S fuel) session_stats_init))
       = Ok (safe_rate_division c)
    /\ (safe_rate_division c = None <-> successful c = 0)
    /\ 0 <= safe c <= successful c
    /\ forall n d : Z,
         safe_rate_division c = Some (n, d) ->
         n = safe c /\ d = successful c /\ 0 < d /\ 0 <= n <= d.
Proof.
  rewrite EpisodeFacts.session_stats_init_counters.
  destruct (run_episodes_sound fuel selves zero_counters) as (c & Hs & Hc).
  { unfold sound, consistent. cbn. lia. }
  exists c. rewrite Hs.
  split; [reflexivity |].
  split; [apply print_session_summary_counters |].
  unfold safe_rate_division. unfold sound, consistent in Hc.
  split; [| split].
  - destruct (Z.ltb_spec 0 (successful c)); split; intros H';
      try discriminate; try reflexivity; lia.
  - lia.
  - intros n d. destruct (Z.ltb_spec 0 (successful c)); [| discriminate].
    intros [= <- <-]. lia.
Qed.

Lemma index_none (l : list Z) (x : Z) :
  index x l = None <-> ~ In x l.
Proof.
  induction l as [| y l IH]; cbn [index In]; [tauto |].
  destruct (Z.eqb_spec y x) as [-> | Hne].
  - split; [discriminate | intros H; exfalso; apply H; left; reflexivity].
  - destruct (index x l) as [i |]; cbn [option_map].
    + split; [discriminate |]. intros H. exfalso.
      destruct IH as [_ IH]. assert (Hn : ~ In x l) by tauto.
      specialize (IH Hn). discriminate.
    + split; [| reflexivity]. intros _ [H | H]; [congruence |].
      destruct IH as [IH _]. exact (IH eq_refl H).
Qed.

Lemma index_some (l : list Z) (x : Z) :
  forall i : nat, index x l = Some i -> l !! i = Some x.
Proof.
  induction l as [| y l IH]; intros i; cbn [index]; [discriminate |].
  destruct (Z.eqb_spec y x) as [-> | Hne].
  - intros [= <-]. reflexivity.
  - destruct (index x l) as [j |]; cbn [option_map]; [| discriminate].
    intros [= <-]. apply IH. reflexivity.
Qed.

Lemma lookup_In (l : list Z) (i : nat) (x : Z) :
  l !! i = Some x -> In x l.
Proof.
  intros H. apply list_elem_of_In. apply list_elem_of_lookup. exists i. exact H.
Qed.

(** X19. The experienced switching point is defined exactly when the
    weight sequence holds the marker: without marker, line 244 raises
    [ValueError]; with a marker it never raises (no [IndexError], not
    even for a marker in first place) and gives an element of the
    sequence. *)
Theorem current_switch_point_defined_iff_marker (episode_data : EpisodeData) :
  match current_switch_point episode_data with
  | Ok w =>
      In (-1) (weight_sequence episode_data)
      /\ In w (weight_sequence episode_data)
  | Raise e => e = ValueError /\ ~ In (-1) (weight_sequence episode_data)
  | Hang => False
  end.
Proof.
  unfold current_switch_point. cbv zeta.
  destruct (index (-1) (weight_sequence episode_data)) as [i |] eqn:Hidx.
  2:{ split; [reflexivity | apply index_none; exact Hidx]. }
  pose proof (index_some _ _ _ Hidx) as Hmark.
  pose proof (lookup_In _ _ _ Hmark) as Hin.
  destruct i as [| i].
  - destruct (weight_sequence episode_data) as [| y l]; [discriminate |].
    change (Z.of_nat 0 - 1) with (-1).
    rewrite SwitchPointFacts.getitem_minus_one.
    split; [exact Hin |].
    apply (lookup_In (y :: l) (length l)).
    apply SwitchPointFacts.lookup_length.
  - rewrite SwitchPointFacts.getitem_nonneg.
    assert (Hlt : (i < length (weight_sequence episode_data))%nat).
    { apply lookup_lt_Some in Hmark. lia. }
    destruct (lookup_lt_is_Some_2 (weight_sequence episode_data) i Hlt)
      as [w Hw].
    rewrite Hw. split; [exact Hin | exact (lookup_In _ _ _ Hw)].
Qed.

End SummaryFacts.
